(** * worker.py: bootstrap sequencer of the image-gen PyWorker

    A shallow embedding of [src/worker.py].  The script is straight-line
    Python whose every step talks to the operating system, so it is
    embedded as a computation in a small trace-and-exception monad: the
    answers of the outside world (which files exist, what the subprocesses
    and the health endpoint reply) are read from a [world] record, every
    side effect is appended to a trace of [event]s, and [sys.exit] and
    uncaught exceptions stop the computation.

    Conventions:
    - Python [float]s are IEEE 754 binary64 values, modelled by Rocq's
      primitive floats;
    - [os.environ] and the [env=] dictionary of [subprocess.Popen] are
      finite maps from names to values ([gmap string string]);
    - every exception of the model is an instance of Python's [Exception];
      [sys.exit] raises [SystemExit], which [except Exception] does not
      catch.  Signals delivered from outside ([KeyboardInterrupt]) are not
      modelled;
    - [print] is total;
    - the file system is read through [path_exists], a snapshot that does
      not change while the script runs. *)

From Stdlib Require Import ZArith List String Ascii Lia.
From Stdlib Require Import Floats.PrimFloat.
From stdpp Require Import gmap strings list.

Local Open Scope string_scope.
Local Open Scope list_scope.
Set Warnings "-register-all".

(** ** Data *)

(** An exception object: its class name and [str(e)]. *)
Record exn := Exn { exn_class : string; exn_str : string }.

(** What a call into the outside world does: return a value or raise. *)
Inductive result (A : Type) : Type :=
| Returns (a : A)
| Raises (e : exn).
Arguments Returns {A} a.
Arguments Raises {A} e.

(** Request payloads handed to a [workload_calculator]: JSON values. *)
Inductive json : Type :=
| JNull
| JBool (b : bool)
| JNum (x : float)
| JStr (s : string)
| JArr (items : list json)
| JObj (fields : list (string * json)).

Record HandlerConfig := {
  route : string;
  allow_parallel_requests : bool;
  max_queue_time : float;
  workload_calculator : json -> float
}.

Record LogActionConfig := {
  on_load : list string;
  on_error : list string
}.

Record WorkerConfig := {
  model_server_url : string;
  model_server_port : Z;
  model_log_file : string;
  handlers : list HandlerConfig;
  log_action_config : LogActionConfig
}.

(** Where [subprocess.Popen] sends a stream of the child. *)
Inductive redirect : Type :=
| Inherit
| DEVNULL
| ToFile (path : string)
| STDOUT.

(** The observable effects of the script, in program order. *)
Inductive event : Type :=
| EPrint (line : string)
| ERun (argv : list string) (timeout : Z)
| EPopen (argv : list string) (cwd : option string)
         (stdout stderr : redirect) (env : option (gmap string string))
| ESleep (secs : Z)
| EMakedirs (path : string)
| EOpen (path : string) (mode : string)
| EUrlopen (url : string) (timeout : Z)
| EFlush (path : string)
| EReadlines (path : string)
| EImport (module : string)
| EWorkerRun (c : WorkerConfig).

(** The outside world, as far as the script consults it. *)
Record world := {
  environ : gmap string string;          (* os.environ at start-up *)
  sys_executable : string;               (* sys.executable *)
  path_exists : string -> bool;          (* os.path.exists *)
  pgrep_result : result Z;               (* returncode of pgrep -x Xvfb *)
  xvfb_spawn : result unit;              (* Popen of Xvfb *)
  certutil_result : result Z;            (* returncode of certutil *)
  makedirs_result : result unit;         (* os.makedirs of the log dir *)
  open_log_result : result unit;         (* open(server.log, "w") *)
  backend_spawn : result unit;           (* Popen of app_server.py *)
  health_response : nat -> result Z;     (* status of the i-th urlopen *)
  log_flush : result unit;               (* log_file.flush() *)
  log_reopen : result unit;              (* open(server.log) for reading *)
  log_readlines : result (list string);  (* f.readlines() *)
  vastai_import : result unit            (* from vastai import ... *)
}.

(** ** The trace-and-exception monad *)

Inductive stop : Type :=
| SystemExit (code : Z)
| Raised (e : exn).

Definition M (A : Type) : Type := (list event * (stop + A))%type.

Definition ret {A} (a : A) : M A := ([], inr a).

Definition bind {A B} (m : M A) (k : A -> M B) : M B :=
  match m with
  | (t, inl s) => (t, inl s)
  | (t, inr a) => let (t', r) := k a in (t ++ t', r)
  end.

Notation "x <- m ;; k" := (bind m (fun x => k))
  (at level 100, m at level 99, k at level 200, right associativity).
Notation "m ;; k" := (bind m (fun _ => k))
  (at level 100, k at level 200, right associativity).

(** An effect that cannot fail. *)
Definition emit (e : event) : M unit := ([e], inr tt).

(** An effect whose outcome the world decides. *)
Definition perform {A} (e : event) (r : result A) : M A :=
  ([e], match r with Returns a => inr a | Raises x => inl (Raised x) end).

Definition sys_exit {A} (code : Z) : M A := ([], inl (SystemExit code)).

(** [try: m  except Exception as e: h e].  [SystemExit] passes through. *)
Definition try_except {A} (m : M A) (h : exn -> M A) : M A :=
  match m with
  | (t, inl (Raised e)) => let (t', r) := h e in (t ++ t', r)
  | _ => m
  end.

Definition print (line : string) : M unit := emit (EPrint line).
Definition sleep (secs : Z) : M unit := emit (ESleep secs).

Definition trace {A} (m : M A) : list event := fst m.
Definition outcome {A} (m : M A) : stop + A := snd m.

(** Exit status of the interpreter: the argument of [sys.exit], 1 after an
    uncaught exception, 0 when the script runs to its end. *)
Definition exit_code {A} (o : stop + A) : Z :=
  match o with
  | inl (SystemExit code) => code
  | inl (Raised _) => 1
  | inr _ => 0
  end.

(** ** Python built-ins used by the script *)

(** [d.setdefault(k, v)] on a dictionary. *)
Definition setdefault (k v : string) (d : gmap string string)
  : gmap string string :=
  match d !! k with
  | Some _ => d
  | None => <[k := v]> d
  end.

Definition startswith_slash (s : string) : bool :=
  match s with
  | String "/" _ => true
  | _ => false
  end.

Fixpoint endswith_slash (s : string) : bool :=
  match s with
  | EmptyString => false
  | String c EmptyString => Ascii.eqb c "/"
  | String _ rest => endswith_slash rest
  end.

(** [os.path.join(a, b)] of posixpath, for two components. *)
Definition path_join (a b : string) : string :=
  if startswith_slash b then b
  else if (String.length a =? 0)%nat || endswith_slash a then a +:+ b
  else a +:+ "/" +:+ b.

(** [str.isspace] on the code points below 256. *)
Definition isspace (c : ascii) : bool :=
  let n := nat_of_ascii c in
  ((9 <=? n) && (n <=? 13) || (28 <=? n) && (n <=? 32)
   || (n =? 133) || (n =? 160))%nat.

(** [s.rstrip()]: drop the trailing white space. *)
Fixpoint rstrip (s : string) : string :=
  match s with
  | EmptyString => EmptyString
  | String c rest =>
      match rstrip rest with
      | EmptyString => if isspace c then EmptyString else String c EmptyString
      | kept => String c kept
      end
  end.

(** [l[-n:]] for a positive [n]: the last [n] elements, all of [l] when it
    is shorter. *)
Definition last_n {A} (n : nat) (l : list A) : list A :=
  drop (length l - n) l.

(** ** 1. Start Xvfb if not running *)

Definition xvfb_argv : list string :=
  ["Xvfb"; ":99"; "-screen"; "0"; "800x600x8";
   "-maxclients"; "512"; "-nolisten"; "tcp"].

Definition pgrep_argv : list string := ["pgrep"; "-x"; "Xvfb"].

Definition start_xvfb (w : world) : M unit :=
  try_except
    (returncode <- perform (ERun pgrep_argv 5) (pgrep_result w) ;;
     if negb (returncode =? 0)%Z then
       print "[worker] Starting Xvfb..." ;;
       perform (EPopen xvfb_argv None DEVNULL DEVNULL None) (xvfb_spawn w) ;;
       sleep 1
     else
       print "[worker] Xvfb already running")
    (fun e => print ("[worker] Xvfb check failed: " +:+ exn_str e)).

(** ** 2. Install mitmproxy CA if present *)

Definition CA_CERT : string := "/root/.mitmproxy/mitmproxy-ca-cert.pem".

Definition certutil_argv : list string :=
  ["certutil"; "-d"; "sql:/root/.pki/nssdb"; "-A"; "-t"; "C,,";
   "-n"; "mitmproxy"; "-i"; CA_CERT].

Definition install_ca (w : world) : M unit :=
  if path_exists w CA_CERT then
    try_except
      (perform (ERun certutil_argv 10) (certutil_result w) ;;
       print "[worker] mitmproxy CA installed")
      (fun _ => ret tt)
  else ret tt.

(** The Environment Preparer: steps 1 and 2. *)
Definition prepare (w : world) : M unit :=
  start_xvfb w ;; install_ca w.

(** ** 3. Start FastAPI server as subprocess *)

Definition ENTRY_POINT : string := "app_server.py".
Definition SERVICE_CANDIDATES : list string := ["/root/service"; "/workspace"].
Definition LOG_DIR : string := "/var/log/image-gen".
Definition LOG_PATH : string := "/var/log/image-gen/server.log".

(** The [for candidate in ...] loop with its [break]; [None] is the initial
    value of [SERVICE_DIR]. *)
Fixpoint find_service_dir (w : world) (candidates : list string)
  : option string :=
  match candidates with
  | [] => None
  | candidate :: rest =>
      if path_exists w (path_join candidate ENTRY_POINT) then Some candidate
      else find_service_dir w rest
  end.

Definition SERVICE_DIR (w : world) : option string :=
  find_service_dir w SERVICE_CANDIDATES.

(** The two successive [if not os.path.exists(SYSTEM_PYTHON)] updates. *)
Definition SYSTEM_PYTHON (w : world) : string :=
  let p0 := "/usr/bin/python3" in
  let p1 := if negb (path_exists w p0) then "/usr/local/bin/python3" else p0 in
  let p2 := if negb (path_exists w p1) then sys_executable w else p1 in
  p2.

(** [{**os.environ, "DISPLAY": ":99"}] *)
Definition backend_env (os_environ : gmap string string)
  : gmap string string :=
  <["DISPLAY" := ":99"]> os_environ.

Definition server_proc (w : world) (os_environ : gmap string string)
    (service_dir : string) : M unit :=
  perform
    (EPopen [SYSTEM_PYTHON w; ENTRY_POINT] (Some service_dir)
            (ToFile LOG_PATH) STDOUT (Some (backend_env os_environ)))
    (backend_spawn w).

(** The Subprocess Supervisor: returns the resolved service directory. *)
Definition supervise (w : world) (os_environ : gmap string string)
  : M string :=
  match SERVICE_DIR w with
  | None =>
      print "[worker] ERROR: Cannot find app_server.py in /root/service or /workspace" ;;
      sys_exit 1
  | Some service_dir =>
      print ("[worker] Starting FastAPI from " +:+ service_dir +:+ "...") ;;
      perform (EMakedirs LOG_DIR) (makedirs_result w) ;;
      perform (EOpen LOG_PATH "w") (open_log_result w) ;;
      server_proc w os_environ service_dir ;;
      ret service_dir
  end.

(** ** 4. Wait for FastAPI to be healthy *)

Definition HEALTH_URL : string := "http://127.0.0.1:8080/health".

Definition poll_event : event := EUrlopen HEALTH_URL 2.

(** The [try] block of one iteration: [true] when it reached [break]. *)
Definition poll (w : world) (i : nat) : M bool :=
  try_except
    (status <- perform poll_event (health_response w i) ;;
     ret (status =? 200)%Z)
    (fun _ => ret false).

(** [for i in range(60)] over the remaining indices; the result is the
    final value of [healthy]. *)
Fixpoint health_loop (w : world) (indices : list nat) : M bool :=
  match indices with
  | [] => ret false
  | i :: rest =>
      broke <- poll w i ;;
      if broke then ret true
      else sleep 1 ;; health_loop w rest
  end.

Definition await_healthy (w : world) : M bool :=
  health_loop w (seq 0 60).

(** The diagnostic [try] block: print the last 20 lines of the log. *)
Definition print_log_tail (w : world) : M unit :=
  try_except
    (perform (EFlush LOG_PATH) (log_flush w) ;;
     perform (EOpen LOG_PATH "r") (log_reopen w) ;;
     lines <- perform (EReadlines LOG_PATH) (log_readlines w) ;;
     fold_right (fun line k => print ("  " +:+ rstrip line) ;; k)
                (ret tt) (last_n 20 lines))
    (fun _ => ret tt).

Definition wait_for_health (w : world) : M unit :=
  print "[worker] Waiting for FastAPI health..." ;;
  healthy <- await_healthy w ;;
  (if negb healthy then
     print "[worker] ERROR: FastAPI did not become healthy in 60s" ;;
     print_log_tail w ;;
     sys_exit 1
   else ret tt) ;;
  print "[worker] FastAPI is healthy!".

(** ** 5. Run Vast PyWorker *)

Definition config : WorkerConfig := {|
  model_server_url := "http://127.0.0.1";
  model_server_port := 8080;
  model_log_file := "/var/log/image-gen/server.log";
  handlers := [
    {| route := "/generate";
       allow_parallel_requests := true;
       max_queue_time := 180.0%float;
       workload_calculator := fun payload => 100.0%float |};
    {| route := "/status";
       allow_parallel_requests := true;
       max_queue_time := 5.0%float;
       workload_calculator := fun payload => 1.0%float |};
    {| route := "/health";
       allow_parallel_requests := true;
       max_queue_time := 5.0%float;
       workload_calculator := fun payload => 1.0%float |}
  ];
  log_action_config := {|
    on_load := ["Uvicorn running on"; "Application startup complete"];
    on_error := ["ERROR"; "Traceback"]
  |}
|}.

Definition run_worker (w : world) : M unit :=
  perform (EImport "vastai") (vastai_import w) ;;
  emit (EWorkerRun config).

(** ** The whole script *)

Definition main (w : world) : M unit :=
  let os_environ := setdefault "DISPLAY" ":99" (environ w) in
  prepare w ;;
  supervise w os_environ ;;
  wait_for_health w ;;
  run_worker w.

(** ** Observations on traces *)

Definition is_poll (e : event) : bool :=
  match e with EUrlopen _ _ => true | _ => false end.

Definition is_sleep (e : event) : bool :=
  match e with ESleep _ => true | _ => false end.

(** Number of events of a trace that satisfy [p]. *)
Definition attempts (p : event -> bool) (tr : list event) : nat :=
  length (List.filter p tr).

(** Total time spent in [time.sleep], in seconds. *)
Fixpoint slept (tr : list event) : Z :=
  match tr with
  | [] => 0
  | ESleep secs :: rest => secs + slept rest
  | _ :: rest => slept rest
  end.

(** The lines written by [print], in order. *)
Fixpoint printed (tr : list event) : list string :=
  match tr with
  | [] => []
  | EPrint line :: rest => line :: printed rest
  | _ :: rest => printed rest
  end.

(** A launch of the backend: a [Popen] whose command names the entry point. *)
Definition is_backend_launch (e : event) : bool :=
  match e with
  | EPopen argv _ _ _ _ => existsb (String.eqb ENTRY_POINT) argv
  | _ => false
  end.

(** [n] unsuccessful iterations of the health loop: a poll, then a sleep. *)
Fixpoint ticks (n : nat) : list event :=
  match n with
  | O => []
  | S n' => poll_event :: ESleep 1 :: ticks n'
  end.

(** Whether a poll outcome is the HTTP status 200. *)
Definition is_200 (r : result Z) : bool :=
  match r with
  | Returns status => (status =? 200)%Z
  | Raises _ => false
  end.

(** A log line as the diagnostic step prints it. *)
Definition log_line (line : string) : string := "  " +:+ rstrip line.

(** The program an [ERun] or [EPopen] event executes. *)
Definition command (e : event) : option string :=
  match e with
  | ERun (c :: _) _ => Some c
  | EPopen (c :: _) _ _ _ _ => Some c
  | _ => None
  end.

Definition runs (name : string) (e : event) : bool :=
  match command e with
  | Some c => String.eqb c name
  | None => false
  end.

(** The hand-off to the Vast worker. *)
Definition is_handoff (e : event) : bool :=
  match e with EWorkerRun _ => true | _ => false end.

(** Every event the Environment Preparer can emit. *)
Inductive prepared : event -> Prop :=
| pre_print line : prepared (EPrint line)
| pre_pgrep : prepared (ERun pgrep_argv 5)
| pre_xvfb : prepared (EPopen xvfb_argv None DEVNULL DEVNULL None)
| pre_sleep : prepared (ESleep 1)
| pre_certutil : prepared (ERun certutil_argv 10).

(** Every event the script can emit in world [w]. *)
Inductive emitted (w : world) : event -> Prop :=
| em_prepare e : prepared e -> emitted w e
| em_print line : emitted w (EPrint line)
| em_sleep : emitted w (ESleep 1)
| em_makedirs : emitted w (EMakedirs LOG_DIR)
| em_open mode : emitted w (EOpen LOG_PATH mode)
| em_backend service_dir :
    SERVICE_DIR w = Some service_dir ->
    emitted w (EPopen [SYSTEM_PYTHON w; ENTRY_POINT] (Some service_dir)
                 (ToFile LOG_PATH) STDOUT
                 (Some (backend_env (setdefault "DISPLAY" ":99" (environ w)))))
| em_poll : emitted w poll_event
| em_flush : emitted w (EFlush LOG_PATH)
| em_readlines : emitted w (EReadlines LOG_PATH)
| em_import : emitted w (EImport "vastai")
| em_worker : emitted w (EWorkerRun config).

(** What follows the Environment Preparer in [main]. *)
Definition after_prepare (w : world) : M unit :=
  supervise w (setdefault "DISPLAY" ":99" (environ w)) ;;
  wait_for_health w ;;
  run_worker w.

(** ** Sample worlds *)

Definition refused : exn :=
  Exn "ConnectionRefusedError" "[Errno 111] Connection refused".

Definition denied : exn :=
  Exn "PermissionError" "[Errno 13] Permission denied".

(** A node on which the listed files exist, every command works, Xvfb is
    not yet running, and the health endpoint and the log answer as given. *)
Definition node (files : list string) (env : gmap string string)
    (health : nat -> result Z) (flush : result unit)
    (log : result (list string)) : world := {|
  environ := env;
  sys_executable := "/venv/bin/python";
  path_exists := fun p => existsb (String.eqb p) files;
  pgrep_result := Returns 1%Z;
  xvfb_spawn := Returns tt;
  certutil_result := Returns 0%Z;
  makedirs_result := Returns tt;
  open_log_result := Returns tt;
  backend_spawn := Returns tt;
  health_response := health;
  log_flush := flush;
  log_reopen := Returns tt;
  log_readlines := log;
  vastai_import := Returns tt
|}.

(** Entry point in the second candidate directory, no system interpreter,
    [DISPLAY] already set, healthy on the third poll. *)
Definition scenario_world : world :=
  node ["/workspace/app_server.py"]
       {[ "DISPLAY" := ":0"; "HOME" := "/root" ]}
       (fun i => if Nat.ltb i 2 then Raises refused else Returns 200%Z)
       (Returns tt) (Returns []).

(** The backend never listens; its log holds three lines. *)
Definition refused_world : world :=
  node ["/root/service/app_server.py"; "/usr/bin/python3"] ∅
       (fun _ => Raises refused)
       (Returns tt)
       (Returns ["INFO: booting"; "ERROR: no GPU  "; "Traceback"]).

(** The backend answers 503 for ever and the log sink cannot be flushed. *)
Definition unavailable_world : world :=
  node ["/root/service/app_server.py"; "/usr/bin/python3"] ∅
       (fun _ => Returns 503%Z)
       (Raises denied)
       (Returns ["INFO: booting"; "ERROR: no GPU  "; "Traceback"]).

(** No service directory holds the entry point. *)
Definition bare_world : world :=
  node ["/usr/bin/python3"] ∅ (fun _ => Returns 200%Z) (Returns tt) (Returns []).

(** ** Shapes of a run *)

(** The Supervisor's events up to and including the launch. *)
Definition launch_trace (w : world) (service_dir : string) : list event :=
  [EPrint ("[worker] Starting FastAPI from " +:+ service_dir +:+ "...");
   EMakedirs LOG_DIR;
   EOpen LOG_PATH "w";
   EPopen [SYSTEM_PYTHON w; ENTRY_POINT] (Some service_dir)
          (ToFile LOG_PATH) STDOUT
          (Some (backend_env (setdefault "DISPLAY" ":99" (environ w))))].

(** The health phase when the poll of index [n] is the first success. *)
Definition ready_trace (n : nat) : list event :=
  EPrint "[worker] Waiting for FastAPI health..." :: ticks n
    ++ [poll_event; EPrint "[worker] FastAPI is healthy!"].

(** The health phase when no poll succeeds. *)
Definition timeout_trace (w : world) : list event :=
  EPrint "[worker] Waiting for FastAPI health..." :: ticks 60
    ++ EPrint "[worker] ERROR: FastAPI did not become healthy in 60s"
    :: trace (print_log_tail w).

(** The seven ways a run of the script can go. *)
Inductive main_case (w : world) : Prop :=
| case_no_entry :
    SERVICE_DIR w = None ->
    main w
    = (trace (prepare w)
         ++ [EPrint "[worker] ERROR: Cannot find app_server.py in /root/service or /workspace"],
       inl (SystemExit 1)) ->
    main_case w
| case_makedirs_raises service_dir e :
    SERVICE_DIR w = Some service_dir ->
    makedirs_result w = Raises e ->
    main w
    = (trace (prepare w)
         ++ [EPrint ("[worker] Starting FastAPI from " +:+ service_dir +:+ "...");
             EMakedirs LOG_DIR],
       inl (Raised e)) ->
    main_case w
| case_open_raises service_dir e :
    SERVICE_DIR w = Some service_dir ->
    makedirs_result w = Returns tt ->
    open_log_result w = Raises e ->
    main w
    = (trace (prepare w)
         ++ [EPrint ("[worker] Starting FastAPI from " +:+ service_dir +:+ "...");
             EMakedirs LOG_DIR;
             EOpen LOG_PATH "w"],
       inl (Raised e)) ->
    main_case w
| case_spawn_raises service_dir e :
    SERVICE_DIR w = Some service_dir ->
    makedirs_result w = Returns tt ->
    open_log_result w = Returns tt ->
    backend_spawn w = Raises e ->
    main w = (trace (prepare w) ++ launch_trace w service_dir, inl (Raised e)) ->
    main_case w
| case_timeout service_dir :
    SERVICE_DIR w = Some service_dir ->
    makedirs_result w = Returns tt ->
    open_log_result w = Returns tt ->
    backend_spawn w = Returns tt ->
    (forall i, i < 60 -> health_response w i <> Returns 200%Z) ->
    main w
    = (trace (prepare w) ++ launch_trace w service_dir ++ timeout_trace w,
       inl (SystemExit 1)) ->
    main_case w
| case_import_raises service_dir n e :
    SERVICE_DIR w = Some service_dir ->
    makedirs_result w = Returns tt ->
    open_log_result w = Returns tt ->
    backend_spawn w = Returns tt ->
    n < 60 ->
    (forall i, i < n -> health_response w i <> Returns 200%Z) ->
    health_response w n = Returns 200%Z ->
    vastai_import w = Raises e ->
    main w
    = (trace (prepare w) ++ launch_trace w service_dir ++ ready_trace n
         ++ [EImport "vastai"],
       inl (Raised e)) ->
    main_case w
| case_handoff service_dir n :
    SERVICE_DIR w = Some service_dir ->
    makedirs_result w = Returns tt ->
    open_log_result w = Returns tt ->
    backend_spawn w = Returns tt ->
    n < 60 ->
    (forall i, i < n -> health_response w i <> Returns 200%Z) ->
    health_response w n = Returns 200%Z ->
    vastai_import w = Returns tt ->
    main w
    = (trace (prepare w) ++ launch_trace w service_dir ++ ready_trace n
         ++ [EImport "vastai"; EWorkerRun config],
       inr tt) ->
    main_case w.

(** Every event the diagnostic step can emit. *)
Inductive diagnostic : event -> Prop :=
| diag_flush : diagnostic (EFlush LOG_PATH)
| diag_open : diagnostic (EOpen LOG_PATH "r")
| diag_readlines : diagnostic (EReadlines LOG_PATH)
| diag_print line : diagnostic (EPrint (log_line line)).

(** Opening the log sink for writing, which truncates it. *)
Definition is_sink_open (e : event) : bool :=
  match e with
  | EOpen path mode => String.eqb path LOG_PATH && String.eqb mode "w"
  | _ => false
  end.

(** Reading the log sink back. *)
Definition is_log_read (e : event) : bool :=
  match e with
  | EFlush _ | EReadlines _ => true
  | EOpen _ mode => String.eqb mode "r"
  | _ => false
  end.

(** In [tr], every event satisfying [q] comes after one satisfying [p]. *)
Definition precedes (p q : event -> bool) (tr : list event) : Prop :=
  forall before e after,
    tr = before ++ e :: after -> q e = true ->
    exists e', In e' before /\ p e' = true.

(** A line of the controller's own output: a [[worker]] message or an
    indented excerpt of the backend's log. *)
Definition tagged (line : string) : bool :=
  String.prefix "[worker] " line || String.prefix "  " line.

(** A node whose log directory cannot be created. *)
Definition readonly_world : world := {|
  environ := ∅;
  sys_executable := "/venv/bin/python";
  path_exists := fun p => String.eqb p "/root/service/app_server.py";
  pgrep_result := Returns 0%Z;
  xvfb_spawn := Returns tt;
  certutil_result := Returns 0%Z;
  makedirs_result := Raises denied;
  open_log_result := Returns tt;
  backend_spawn := Returns tt;
  health_response := fun _ => Returns 200%Z;
  log_flush := Returns tt;
  log_reopen := Returns tt;
  log_readlines := Returns [];
  vastai_import := Returns tt
|}.

(** A node on which the interpreter may not be executed. *)
Definition unlaunchable_world : world := {|
  environ := ∅;
  sys_executable := "/venv/bin/python";
  path_exists := fun p => String.eqb p "/root/service/app_server.py";
  pgrep_result := Returns 0%Z;
  xvfb_spawn := Returns tt;
  certutil_result := Returns 0%Z;
  makedirs_result := Returns tt;
  open_log_result := Returns tt;
  backend_spawn := Raises denied;
  health_response := fun _ => Returns 200%Z;
  log_flush := Returns tt;
  log_reopen := Returns tt;
  log_readlines := Returns [];
  vastai_import := Returns tt
|}.

(** A healthy node on which the [vastai] package is not installed. *)
Definition no_vastai_world : world := {|
  environ := ∅;
  sys_executable := "/venv/bin/python";
  path_exists := fun p => String.eqb p "/root/service/app_server.py";
  pgrep_result := Returns 0%Z;
  xvfb_spawn := Returns tt;
  certutil_result := Returns 0%Z;
  makedirs_result := Returns tt;
  open_log_result := Returns tt;
  backend_spawn := Returns tt;
  health_response := fun _ => Returns 200%Z;
  log_flush := Returns tt;
  log_reopen := Returns tt;
  log_readlines := Returns [];
  vastai_import := Raises (Exn "ModuleNotFoundError" "No module named 'vastai'")
|}.

(** ** Laws of the monad *)

Lemma trace_bind {A B} (m : M A) (k : A -> M B) :
  trace (bind m k)
  = trace m ++ match outcome m with inl _ => [] | inr a => trace (k a) end.
Proof.
  destruct m as [t [s|a]]; simpl.
  - now rewrite app_nil_r.
  - now destruct (k a).
Qed.

Lemma outcome_bind {A B} (m : M A) (k : A -> M B) :
  outcome (bind m k)
  = match outcome m with inl s => inl s | inr a => outcome (k a) end.
Proof.
  destruct m as [t [s|a]]; simpl; [reflexivity | now destruct (k a)].
Qed.

Lemma run_eta {A} (m : M A) : m = (trace m, outcome m).
Proof. now destruct m. Qed.

Lemma bind_returns {A B} (m : M A) (k : A -> M B) (t : list event) (a : A) :
  m = (t, inr a) -> bind m k = (t ++ trace (k a), outcome (k a)).
Proof. intros ->. simpl. now destruct (k a). Qed.

Lemma bind_stops {A B} (m : M A) (k : A -> M B) (t : list event) (s : stop) :
  m = (t, inl s) -> bind m k = (t, inl s).
Proof. now intros ->. Qed.

(** ** The health loop *)

Lemma is_200_true (r : result Z) : is_200 r = true <-> r = Returns 200%Z.
Proof.
  destruct r as [status|e]; simpl; split; try discriminate.
  - intros H. apply Z.eqb_eq in H. now subst.
  - intros [= ->]. reflexivity.
Qed.

Lemma is_200_false (r : result Z) : is_200 r = false <-> r <> Returns 200%Z.
Proof.
  rewrite <- is_200_true. destruct (is_200 r); split; congruence.
Qed.

Section HealthLoop.

Variable w : world.

Lemma poll_run (i : nat) :
  poll w i = ([poll_event], inr (is_200 (health_response w i))).
Proof.
  unfold poll, perform. destruct (health_response w i); reflexivity.
Qed.

Lemma health_loop_cons (i : nat) (rest : list nat) :
  health_loop w (i :: rest)
  = if is_200 (health_response w i) then ([poll_event], inr true)
    else (poll_event :: ESleep 1 :: trace (health_loop w rest),
          outcome (health_loop w rest)).
Proof.
  cbn [health_loop]. rewrite poll_run.
  destruct (is_200 (health_response w i)); simpl; [reflexivity|].
  now destruct (health_loop w rest).
Qed.

Lemma health_loop_all_fail (indices : list nat) :
  (forall i, In i indices -> health_response w i <> Returns 200%Z) ->
  health_loop w indices = (ticks (length indices), inr false).
Proof.
  induction indices as [|i rest IH]; intros Hfail; [reflexivity|].
  rewrite health_loop_cons.
  assert (is_200 (health_response w i) = false) as ->
    by (apply is_200_false, Hfail; now left).
  rewrite IH by (intros j Hj; apply Hfail; now right).
  reflexivity.
Qed.

Lemma health_loop_first_success (before : list nat) (i : nat)
    (after : list nat) :
  (forall j, In j before -> health_response w j <> Returns 200%Z) ->
  health_response w i = Returns 200%Z ->
  health_loop w (before ++ i :: after)
  = (ticks (length before) ++ [poll_event], inr true).
Proof.
  induction before as [|j rest IH]; intros Hfail Hok.
  - simpl app. rewrite health_loop_cons.
    now rewrite (proj2 (is_200_true _) Hok).
  - rewrite <- app_comm_cons, health_loop_cons.
    assert (is_200 (health_response w j) = false) as ->
      by (apply is_200_false, Hfail; now left).
    rewrite IH; [reflexivity | | assumption].
    intros k Hk. apply Hfail. now right.
Qed.

End HealthLoop.

Lemma health_loop_agree (w1 w2 : world) (indices : list nat) :
  (forall i, In i indices ->
     is_200 (health_response w1 i) = is_200 (health_response w2 i)) ->
  health_loop w1 indices = health_loop w2 indices.
Proof.
  induction indices as [|i rest IH]; intros Hagree; [reflexivity|].
  rewrite !health_loop_cons, (Hagree i) by now left.
  rewrite IH by (intros j Hj; apply Hagree; now right).
  reflexivity.
Qed.

Lemma attempts_app (p : event -> bool) (t1 t2 : list event) :
  attempts p (t1 ++ t2) = attempts p t1 + attempts p t2.
Proof. unfold attempts. now rewrite List.filter_app, length_app. Qed.

Lemma attempts_none (p : event -> bool) (P : event -> Prop) (tr : list event) :
  Forall P tr -> (forall e, P e -> p e = false) -> attempts p tr = 0.
Proof.
  intros Hall Hp. unfold attempts.
  induction Hall as [|e rest He _ IH]; [reflexivity|].
  cbn [List.filter]. now rewrite (Hp e He).
Qed.

Lemma polls_ticks (n : nat) : attempts is_poll (ticks n) = n.
Proof. induction n; simpl; [reflexivity | unfold attempts in *; simpl; lia]. Qed.

Lemma sleeps_ticks (n : nat) : attempts is_sleep (ticks n) = n.
Proof. induction n; simpl; [reflexivity | unfold attempts in *; simpl; lia]. Qed.

Lemma slept_app (t1 t2 : list event) : slept (t1 ++ t2) = (slept t1 + slept t2)%Z.
Proof.
  induction t1 as [|e t1 IH]; [reflexivity|].
  rewrite <- app_comm_cons. destruct e; cbn [slept]; lia.
Qed.

Lemma slept_ticks (n : nat) : slept (ticks n) = (Z.of_nat n * 1)%Z.
Proof. induction n; cbn [ticks]; unfold poll_event; cbn [slept]; lia. Qed.

Lemma printed_app (t1 t2 : list event) :
  printed (t1 ++ t2) = printed t1 ++ printed t2.
Proof.
  induction t1 as [|e t1 IH]; simpl; [reflexivity|].
  destruct e; rewrite ?IH; reflexivity.
Qed.

Lemma printed_ticks (n : nat) : printed (ticks n) = [].
Proof. induction n; simpl; auto. Qed.

Lemma seq_split_at (n len : nat) :
  n < len -> seq 0 len = seq 0 n ++ n :: seq (S n) (len - S n).
Proof.
  intros Hlt. replace len with (n + S (len - S n)) at 1 by lia.
  now rewrite seq_app, <- cons_seq.
Qed.

Lemma await_healthy_success (w : world) (n : nat) :
  n < 60 ->
  (forall i, i < n -> health_response w i <> Returns 200%Z) ->
  health_response w n = Returns 200%Z ->
  await_healthy w = (ticks n ++ [poll_event], inr true).
Proof.
  intros Hlt Hfail Hok. unfold await_healthy.
  rewrite (seq_split_at n 60 Hlt).
  rewrite health_loop_first_success; [now rewrite length_seq | | assumption].
  intros j Hj. apply Hfail. apply in_seq in Hj. lia.
Qed.

Lemma await_healthy_timeout (w : world) :
  (forall i, i < 60 -> health_response w i <> Returns 200%Z) ->
  await_healthy w = (ticks 60, inr false).
Proof.
  intros Hfail. unfold await_healthy.
  rewrite health_loop_all_fail; [now rewrite length_seq|].
  intros i Hi. apply Hfail. apply in_seq in Hi. lia.
Qed.

(** ** The diagnostic step *)

Lemma print_each_run (lines : list string) :
  fold_right (fun line k => print ("  " +:+ rstrip line) ;; k) (ret tt) lines
  = (map (fun line => EPrint (log_line line)) lines, inr tt).
Proof.
  induction lines as [|line rest IH]; [reflexivity|].
  cbn [fold_right map]. now rewrite IH.
Qed.

Lemma printed_map_print (ls : list string) :
  printed (map (fun line => EPrint (log_line line)) ls) = map log_line ls.
Proof. induction ls as [|l ls IH]; simpl; [reflexivity | now rewrite IH]. Qed.

Lemma length_last_n {A} (n : nat) (l : list A) :
  length (last_n n l) = Nat.min n (length l).
Proof. unfold last_n. rewrite length_drop. lia. Qed.

Lemma last_n_suffix {A} (n : nat) (l : list A) :
  l = take (length l - n) l ++ last_n n l.
Proof. unfold last_n. now rewrite take_drop. Qed.

(** The step never stops the script, whatever the log sink does. *)
Lemma print_log_tail_returns (w : world) :
  outcome (print_log_tail w) = inr tt.
Proof.
  unfold print_log_tail, perform.
  destruct (log_flush w), (log_reopen w), (log_readlines w) as [lines|];
    cbn [bind try_except ret]; try reflexivity.
  rewrite print_each_run. reflexivity.
Qed.

Lemma print_log_tail_success (w : world) (lines : list string) :
  log_flush w = Returns tt -> log_reopen w = Returns tt ->
  log_readlines w = Returns lines ->
  printed (trace (print_log_tail w)) = map log_line (last_n 20 lines).
Proof.
  intros Hf Ho Hr. unfold print_log_tail, perform. rewrite Hf, Ho, Hr.
  cbn [bind try_except ret]. rewrite print_each_run.
  cbn. now rewrite printed_map_print.
Qed.

Lemma print_log_tail_bounded (w : world) :
  length (printed (trace (print_log_tail w))) <= 20.
Proof.
  unfold print_log_tail, perform.
  destruct (log_flush w), (log_reopen w), (log_readlines w) as [lines|];
    cbn [bind try_except ret]; try (cbn; lia).
  rewrite print_each_run. cbn.
  rewrite printed_map_print, length_map, length_last_n. lia.
Qed.

Lemma wait_for_health_timeout (w : world) :
  (forall i, i < 60 -> health_response w i <> Returns 200%Z) ->
  wait_for_health w
  = (EPrint "[worker] Waiting for FastAPI health..." :: ticks 60
       ++ EPrint "[worker] ERROR: FastAPI did not become healthy in 60s"
       :: trace (print_log_tail w),
     inl (SystemExit 1)).
Proof.
  intros Hfail. unfold wait_for_health.
  rewrite (await_healthy_timeout w Hfail).
  pose proof (print_log_tail_returns w) as Hret.
  destruct (print_log_tail w) as [t o]. cbn in Hret. subst o.
  unfold print, emit, sys_exit. cbn [bind negb trace fst].
  now rewrite !app_nil_r.
Qed.

Lemma wait_for_health_ready (w : world) (n : nat) :
  n < 60 ->
  (forall i, i < n -> health_response w i <> Returns 200%Z) ->
  health_response w n = Returns 200%Z ->
  wait_for_health w
  = (EPrint "[worker] Waiting for FastAPI health..." :: ticks n
       ++ [poll_event; EPrint "[worker] FastAPI is healthy!"],
     inr tt).
Proof.
  intros Hlt Hfail Hok. unfold wait_for_health.
  rewrite (await_healthy_success w n Hlt Hfail Hok).
  unfold print, emit, ret. cbn [bind negb].
  cbn [app]. now rewrite <- app_assoc.
Qed.

(** ** Event alphabets *)

Lemma Forall_trace_bind {A B} (P : event -> Prop) (m : M A) (k : A -> M B) :
  Forall P (trace m) ->
  (forall a, outcome m = inr a -> Forall P (trace (k a))) ->
  Forall P (trace (bind m k)).
Proof.
  intros Hm Hk. rewrite trace_bind. apply Forall_app. split; [assumption|].
  destruct (outcome m) as [s|a]; [constructor | now apply Hk].
Qed.

Lemma Forall_trace_try {A} (P : event -> Prop) (m : M A) (h : exn -> M A) :
  Forall P (trace m) ->
  (forall e, Forall P (trace (h e))) ->
  Forall P (trace (try_except m h)).
Proof.
  intros Hm Hh. destruct m as [t [[code|e]|a]]; cbn [try_except]; try assumption.
  specialize (Hh e). destruct (h e) as [t' r].
  apply Forall_app. split; assumption.
Qed.

Lemma Forall_trace_perform {A} (P : event -> Prop) (e : event) (r : result A) :
  P e -> Forall P (trace (perform e r)).
Proof. intros He. repeat constructor. exact He. Qed.

Lemma Forall_trace_emit (P : event -> Prop) (e : event) :
  P e -> Forall P (trace (emit e)).
Proof. intros He. repeat constructor. exact He. Qed.

Lemma Forall_trace_ret {A} (P : event -> Prop) (a : A) :
  Forall P (trace (ret a)).
Proof. constructor. Qed.

Lemma Forall_trace_exit {A} (P : event -> Prop) (code : Z) :
  Forall P (trace (@sys_exit A code)).
Proof. constructor. Qed.

Create HintDb alphabet.
#[export] Hint Constructors prepared emitted : alphabet.

(** Walks through a computation built from the monad's combinators. *)
Ltac walk_trace :=
  repeat first
    [ apply Forall_trace_bind; [|intros ? _]
    | apply Forall_trace_try; [|intros ?]
    | apply Forall_trace_perform
    | apply Forall_trace_emit
    | apply Forall_trace_ret
    | apply Forall_trace_exit
    | match goal with |- Forall _ (trace (if ?b then _ else _)) => destruct b end
    | match goal with
      | |- Forall _ (trace (match ?o with Some _ => _ | None => _ end)) =>
          destruct o eqn:?
      end ];
  eauto with alphabet.

Lemma start_xvfb_alphabet (w : world) : Forall prepared (trace (start_xvfb w)).
Proof. unfold start_xvfb, print, sleep. walk_trace. Qed.

Lemma install_ca_alphabet (w : world) : Forall prepared (trace (install_ca w)).
Proof. unfold install_ca, print. walk_trace. Qed.

Lemma prepare_alphabet (w : world) : Forall prepared (trace (prepare w)).
Proof.
  unfold prepare. apply Forall_trace_bind;
    [apply start_xvfb_alphabet | intros; apply install_ca_alphabet].
Qed.

Lemma prepared_emitted (w : world) (tr : list event) :
  Forall prepared tr -> Forall (emitted w) tr.
Proof.
  intros Hall. eapply Forall_impl; [exact Hall|].
  intros e He. now constructor.
Qed.

Lemma supervise_alphabet (w : world) :
  Forall (emitted w)
    (trace (supervise w (setdefault "DISPLAY" ":99" (environ w)))).
Proof. unfold supervise, server_proc, print. walk_trace. Qed.

Lemma health_loop_alphabet (w : world) (indices : list nat) :
  Forall (emitted w) (trace (health_loop w indices)).
Proof.
  induction indices as [|i rest IH]; [constructor|].
  rewrite health_loop_cons.
  destruct (is_200 (health_response w i)); cbn [trace fst];
    repeat (constructor; auto with alphabet).
Qed.

Lemma print_log_tail_alphabet (w : world) :
  Forall (emitted w) (trace (print_log_tail w)).
Proof.
  unfold print_log_tail. walk_trace.
  rewrite print_each_run. cbn [trace fst].
  apply Forall_map, Forall_forall. auto with alphabet.
Qed.

Lemma wait_for_health_alphabet (w : world) :
  Forall (emitted w) (trace (wait_for_health w)).
Proof.
  unfold wait_for_health, print.
  apply Forall_trace_bind;
    [apply Forall_trace_emit; auto with alphabet | intros _ _].
  apply Forall_trace_bind; [apply health_loop_alphabet | intros healthy _].
  apply Forall_trace_bind;
    [| intros _ _; apply Forall_trace_emit; auto with alphabet].
  destruct healthy; cbn [negb]; [apply Forall_trace_ret|].
  apply Forall_trace_bind;
    [apply Forall_trace_emit; auto with alphabet | intros _ _].
  apply Forall_trace_bind;
    [apply print_log_tail_alphabet | intros _ _; apply Forall_trace_exit].
Qed.

Lemma run_worker_alphabet (w : world) :
  Forall (emitted w) (trace (run_worker w)).
Proof. unfold run_worker. walk_trace. Qed.

Lemma main_alphabet (w : world) : Forall (emitted w) (trace (main w)).
Proof.
  unfold main. cbv zeta.
  apply Forall_trace_bind;
    [apply prepared_emitted, prepare_alphabet | intros _ _].
  apply Forall_trace_bind; [apply supervise_alphabet | intros _ _].
  apply Forall_trace_bind; [apply wait_for_health_alphabet | intros _ _].
  apply run_worker_alphabet.
Qed.

(** ** The Environment Preparer *)

Lemma start_xvfb_returns (w : world) : outcome (start_xvfb w) = inr tt.
Proof.
  unfold start_xvfb, perform, print, sleep, emit.
  destruct (pgrep_result w) as [returncode|e]; cbn [bind try_except];
    [|reflexivity].
  destruct (negb (returncode =? 0)%Z); cbn [bind try_except]; [|reflexivity].
  destruct (xvfb_spawn w); reflexivity.
Qed.

Lemma install_ca_returns (w : world) : outcome (install_ca w) = inr tt.
Proof.
  unfold install_ca, perform, print, emit.
  destruct (path_exists w CA_CERT); [|reflexivity].
  destruct (certutil_result w); reflexivity.
Qed.

Lemma prepare_returns (w : world) : outcome (prepare w) = inr tt.
Proof.
  unfold prepare. rewrite outcome_bind, start_xvfb_returns.
  apply install_ca_returns.
Qed.

Lemma prepare_run (w : world) : prepare w = (trace (prepare w), inr tt).
Proof. rewrite (run_eta (prepare w)) at 1. now rewrite prepare_returns. Qed.

Lemma start_xvfb_once (w : world) (name : string) :
  In name ["pgrep"; "Xvfb"; "certutil"] ->
  attempts (runs name) (trace (start_xvfb w)) <= 1.
Proof.
  intros Hcases.
  unfold start_xvfb, perform, print, sleep, emit.
  destruct (pgrep_result w) as [returncode|e]; cbn [bind try_except].
  - destruct (negb (returncode =? 0)%Z); cbn [bind try_except].
    + destruct (xvfb_spawn w);
        destruct Hcases as [<-|[<-|[<-|[]]]]; cbn; lia.
    + destruct Hcases as [<-|[<-|[<-|[]]]]; cbn; lia.
  - destruct Hcases as [<-|[<-|[<-|[]]]]; cbn; lia.
Qed.

Lemma install_ca_once (w : world) (name : string) :
  In name ["pgrep"; "Xvfb"; "certutil"] ->
  attempts (runs name) (trace (install_ca w))
  = if String.eqb name "certutil" && path_exists w CA_CERT then 1 else 0.
Proof.
  intros Hcases.
  unfold install_ca, perform, print, emit.
  destruct (path_exists w CA_CERT).
  - destruct (certutil_result w);
      destruct Hcases as [<-|[<-|[<-|[]]]]; reflexivity.
  - destruct Hcases as [<-|[<-|[<-|[]]]]; reflexivity.
Qed.

Lemma start_xvfb_no_certutil (w : world) :
  attempts (runs "certutil") (trace (start_xvfb w)) = 0.
Proof.
  unfold start_xvfb, perform, print, sleep, emit.
  destruct (pgrep_result w) as [returncode|e]; cbn [bind try_except];
    [|reflexivity].
  destruct (negb (returncode =? 0)%Z); cbn [bind try_except]; [|reflexivity].
  destruct (xvfb_spawn w); reflexivity.
Qed.

Lemma prepare_once (w : world) (name : string) :
  In name ["pgrep"; "Xvfb"; "certutil"] ->
  attempts (runs name) (trace (prepare w)) <= 1.
Proof.
  intros Hname. unfold prepare.
  rewrite trace_bind, start_xvfb_returns, attempts_app.
  rewrite (install_ca_once w name Hname).
  destruct (String.eqb name "certutil") eqn:Hc.
  - apply String.eqb_eq in Hc. subst name.
    rewrite start_xvfb_no_certutil. cbn [andb]. destruct (path_exists w CA_CERT); lia.
  - cbn [andb]. pose proof (start_xvfb_once w name Hname). lia.
Qed.

(** ** The Supervisor and the whole script *)

Lemma main_run (w : world) :
  main w = (trace (prepare w) ++ trace (after_prepare w),
            outcome (after_prepare w)).
Proof.
  unfold main. cbv zeta. now rewrite (bind_returns _ _ _ _ (prepare_run w)).
Qed.

Lemma SERVICE_DIR_cases (w : world) :
  SERVICE_DIR w
  = if path_exists w "/root/service/app_server.py" then Some "/root/service"
    else if path_exists w "/workspace/app_server.py" then Some "/workspace"
    else None.
Proof. reflexivity. Qed.

Lemma supervise_missing (w : world) (os_environ : gmap string string) :
  SERVICE_DIR w = None ->
  supervise w os_environ
  = ([EPrint "[worker] ERROR: Cannot find app_server.py in /root/service or /workspace"],
     inl (SystemExit 1)).
Proof. intros H. unfold supervise. now rewrite H. Qed.

Lemma supervise_launches (w : world) (os_environ : gmap string string)
    (service_dir : string) :
  SERVICE_DIR w = Some service_dir ->
  makedirs_result w = Returns tt ->
  open_log_result w = Returns tt ->
  backend_spawn w = Returns tt ->
  supervise w os_environ
  = ([EPrint ("[worker] Starting FastAPI from " +:+ service_dir +:+ "...");
      EMakedirs LOG_DIR;
      EOpen LOG_PATH "w";
      EPopen [SYSTEM_PYTHON w; ENTRY_POINT] (Some service_dir)
             (ToFile LOG_PATH) STDOUT (Some (backend_env os_environ))],
     inr service_dir).
Proof.
  intros Hd Hm Ho Hs. unfold supervise, server_proc, perform.
  now rewrite Hd, Hm, Ho, Hs.
Qed.

Lemma supervise_trace (w : world) (os_environ : gmap string string)
    (service_dir : string) :
  SERVICE_DIR w = Some service_dir ->
  makedirs_result w = Returns tt ->
  open_log_result w = Returns tt ->
  trace (supervise w os_environ)
  = [EPrint ("[worker] Starting FastAPI from " +:+ service_dir +:+ "...");
     EMakedirs LOG_DIR;
     EOpen LOG_PATH "w";
     EPopen [SYSTEM_PYTHON w; ENTRY_POINT] (Some service_dir)
            (ToFile LOG_PATH) STDOUT (Some (backend_env os_environ))].
Proof.
  intros Hd Hm Ho. unfold supervise, server_proc, perform.
  rewrite Hd, Hm, Ho. now destruct (backend_spawn w).
Qed.

Lemma backend_env_setdefault (d : gmap string string) :
  backend_env (setdefault "DISPLAY" ":99" d) = <["DISPLAY" := ":99"]> d.
Proof.
  unfold backend_env, setdefault.
  destruct (d !! "DISPLAY"); [reflexivity | apply insert_insert_eq].
Qed.

Lemma main_launches (w : world) (service_dir : string) :
  SERVICE_DIR w = Some service_dir ->
  makedirs_result w = Returns tt ->
  open_log_result w = Returns tt ->
  In (EPopen [SYSTEM_PYTHON w; ENTRY_POINT] (Some service_dir)
        (ToFile LOG_PATH) STDOUT
        (Some (backend_env (setdefault "DISPLAY" ":99" (environ w)))))
     (trace (main w)).
Proof.
  intros Hdir Hmk Hopen.
  rewrite main_run. apply in_or_app. right.
  unfold after_prepare. rewrite trace_bind. apply in_or_app. left.
  rewrite (supervise_trace w _ service_dir Hdir Hmk Hopen).
  do 3 right. left. reflexivity.
Qed.

Lemma main_emits (w : world) (e : event) :
  In e (trace (main w)) -> emitted w e.
Proof. apply (proj1 (List.Forall_forall _ _) (main_alphabet w)). Qed.

(** ** Claims *)

(** C1. If the health endpoint first answers 200 on the N-th poll, with
    1 <= N <= 60, the health gate polls exactly N times and ends with
    [healthy = True] right after the successful poll: the trace is N-1
    unsuccessful ticks (a poll followed by the one-second sleep) and then
    the successful poll, so it sleeps exactly N-1 times, (N-1) x 1 seconds
    in total, and the script goes on to announce readiness. *)
Theorem health_gate_ready_on_Nth_poll (w : world) (N : nat) :
  1 <= N <= 60 ->
  (forall i, i < N - 1 -> health_response w i <> Returns 200%Z) ->
  health_response w (N - 1) = Returns 200%Z ->
  await_healthy w = (ticks (N - 1) ++ [poll_event], inr true)
  /\ attempts is_poll (trace (await_healthy w)) = N
  /\ attempts is_sleep (trace (await_healthy w)) = N - 1
  /\ slept (trace (await_healthy w)) = (Z.of_nat (N - 1) * 1)%Z
  /\ last (trace (await_healthy w)) = Some poll_event
  /\ wait_for_health w
     = (EPrint "[worker] Waiting for FastAPI health..." :: ticks (N - 1)
          ++ [poll_event; EPrint "[worker] FastAPI is healthy!"],
        inr tt).
Proof.
  intros HN Hfail Hok.
  assert (N - 1 < 60) as Hlt by lia.
  rewrite (await_healthy_success w (N - 1) Hlt Hfail Hok). cbn [trace fst].
  repeat split.
  - rewrite attempts_app, polls_ticks. cbn. lia.
  - rewrite attempts_app, sleeps_ticks. cbn. lia.
  - rewrite slept_app, slept_ticks. cbn. lia.
  - apply last_snoc.
  - now apply wait_for_health_ready.
Qed.

(** The scenario node becomes healthy on its third poll. *)
Lemma health_gate_ready_on_3rd_poll :
  1 <= 3 <= 60
  /\ (forall i, i < 3 - 1 -> health_response scenario_world i <> Returns 200%Z)
  /\ health_response scenario_world (3 - 1) = Returns 200%Z
  /\ attempts is_poll (trace (await_healthy scenario_world)) = 3
  /\ attempts is_sleep (trace (await_healthy scenario_world)) = 3 - 1
  /\ slept (trace (await_healthy scenario_world)) = 2%Z.
Proof.
  assert (1 <= 3 <= 60) as HN by lia.
  assert (forall i, i < 3 - 1 ->
            health_response scenario_world i <> Returns 200%Z) as Hfail.
  { intros i Hi. destruct i as [|[|i]]; [discriminate | discriminate | simpl in Hi; lia]. }
  assert (health_response scenario_world (3 - 1) = Returns 200%Z) as Hok
    by reflexivity.
  destruct (health_gate_ready_on_Nth_poll scenario_world 3 HN Hfail Hok)
    as (_ & Hpolls & Hsleeps & Hslept & _).
  split; [exact HN|].
  split; [exact Hfail|].
  split; [exact Hok|].
  split; [exact Hpolls|].
  split; [exact Hsleeps|].
  rewrite Hslept. reflexivity.
Defined.

(** C2. If the health endpoint never answers 200, the health gate polls
    exactly 60 times, the controller then prints the error line followed by
    at most 20 log lines and exits with status 1.  When the log sink can be
    read, the lines printed are the last 20 lines of the log (all of them
    when the log is shorter), each right-stripped and indented. *)
Theorem health_gate_timeout_diagnostics (w : world) :
  (forall i, i < 60 -> health_response w i <> Returns 200%Z) ->
  wait_for_health w
  = (EPrint "[worker] Waiting for FastAPI health..." :: ticks 60
       ++ EPrint "[worker] ERROR: FastAPI did not become healthy in 60s"
       :: trace (print_log_tail w),
     inl (SystemExit 1))
  /\ attempts is_poll (trace (await_healthy w)) = 60
  /\ exit_code (outcome (wait_for_health w)) <> 0%Z
  /\ length (printed (trace (print_log_tail w))) <= 20
  /\ (forall lines,
        log_flush w = Returns tt -> log_reopen w = Returns tt ->
        log_readlines w = Returns lines ->
        printed (trace (print_log_tail w)) = map log_line (last_n 20 lines)
        /\ length (printed (trace (print_log_tail w)))
           = Nat.min 20 (length lines)
        /\ lines = take (length lines - 20) lines ++ last_n 20 lines).
Proof.
  intros Hfail.
  rewrite (wait_for_health_timeout w Hfail), (await_healthy_timeout w Hfail).
  split; [reflexivity|].
  split; [apply (polls_ticks 60)|].
  split; [discriminate|].
  split; [apply print_log_tail_bounded|].
  intros lines Hflush Hopen Hread.
  rewrite (print_log_tail_success w lines) by assumption.
  split; [reflexivity|].
  split; [now rewrite length_map, length_last_n | apply last_n_suffix].
Qed.

(** A backend that never listens, with a log of three lines. *)
Lemma health_gate_timeout_short_log :
  (forall i, i < 60 -> health_response refused_world i <> Returns 200%Z)
  /\ outcome (wait_for_health refused_world) = inl (SystemExit 1)
  /\ printed (trace (print_log_tail refused_world))
     = ["  INFO: booting"; "  ERROR: no GPU"; "  Traceback"].
Proof.
  assert (forall i, i < 60 ->
            health_response refused_world i <> Returns 200%Z) as Hfail
    by (intros i _; discriminate).
  destruct (health_gate_timeout_diagnostics refused_world Hfail)
    as (Hrun & _ & _ & _ & Hlog).
  split; [exact Hfail|].
  split; [now rewrite Hrun|].
  destruct (Hlog _ eq_refl eq_refl eq_refl) as (-> & _). reflexivity.
Defined.

(** C3. If neither [/root/service] nor [/workspace] contains
    [app_server.py], the controller prints the error line and exits with
    status 1 right after the Environment Preparer: nothing of the launch
    step runs, and no event of the whole run starts the backend or hands
    over to the Vast worker. *)
Theorem missing_entry_point_exits_1 (w : world) :
  path_exists w "/root/service/app_server.py" = false ->
  path_exists w "/workspace/app_server.py" = false ->
  main w
  = (trace (prepare w)
       ++ [EPrint "[worker] ERROR: Cannot find app_server.py in /root/service or /workspace"],
     inl (SystemExit 1))
  /\ exit_code (outcome (main w)) = 1%Z
  /\ attempts is_backend_launch (trace (main w)) = 0
  /\ attempts is_handoff (trace (main w)) = 0.
Proof.
  intros H1 H2.
  assert (SERVICE_DIR w = None) as Hnone
    by (rewrite SERVICE_DIR_cases, H1, H2; reflexivity).
  assert (main w
          = (trace (prepare w)
               ++ [EPrint "[worker] ERROR: Cannot find app_server.py in /root/service or /workspace"],
             inl (SystemExit 1))) as Hrun.
  { rewrite main_run. unfold after_prepare.
    now rewrite (bind_stops _ _ _ _ (supervise_missing w _ Hnone)). }
  rewrite Hrun. cbn [trace outcome fst snd exit_code].
  split; [reflexivity|]. split; [reflexivity|].
  rewrite !attempts_app.
  rewrite (attempts_none is_backend_launch prepared _ (prepare_alphabet w))
    by (intros e He; destruct He; reflexivity).
  rewrite (attempts_none is_handoff prepared _ (prepare_alphabet w))
    by (intros e He; destruct He; reflexivity).
  split; reflexivity.
Qed.

(** A node without any service directory. *)
Lemma missing_entry_point_on_bare_node :
  path_exists bare_world "/root/service/app_server.py" = false
  /\ path_exists bare_world "/workspace/app_server.py" = false
  /\ exit_code (outcome (main bare_world)) = 1%Z
  /\ attempts is_backend_launch (trace (main bare_world)) = 0.
Proof.
  destruct (missing_entry_point_exits_1 bare_world eq_refl eq_refl)
    as (_ & Hcode & Hnone & _).
  split; [reflexivity|]. split; [reflexivity|]. split; assumption.
Defined.

(** C4. Each poll is one [urlopen] of the health URL with a 2 second
    timeout, and it counts as a success exactly when it returns status 200.
    Every other outcome, a different status or any exception, leads to the
    same step: the one-second sleep and the next iteration.  Hence two
    worlds whose health endpoints agree, poll by poll, on whether the
    answer is 200 give the same run of the health gate, whatever the
    failures are; and the gate itself never stops the script. *)
Theorem poll_only_200_counts (w1 w2 : world) :
  (forall i, health_response w1 i = Returns 200%Z
             <-> health_response w2 i = Returns 200%Z) ->
  await_healthy w1 = await_healthy w2
  /\ (forall i, trace (poll w1 i) = [EUrlopen HEALTH_URL 2]
                /\ (outcome (poll w1 i) = inr true
                    <-> health_response w1 i = Returns 200%Z)
                /\ (outcome (poll w1 i) = inr false
                    <-> health_response w1 i <> Returns 200%Z))
  /\ (forall i rest,
        health_response w1 i <> Returns 200%Z ->
        health_loop w1 (i :: rest)
        = (EUrlopen HEALTH_URL 2 :: ESleep 1 :: trace (health_loop w1 rest),
           outcome (health_loop w1 rest)))
  /\ exists healthy, outcome (await_healthy w1) = inr healthy.
Proof.
  intros Hagree. split; [|split; [|split]].
  - apply health_loop_agree. intros i _.
    destruct (is_200 (health_response w1 i)) eqn:H1.
    + symmetry. apply is_200_true, Hagree, is_200_true, H1.
    + symmetry. apply is_200_false. intros H2.
      apply Hagree, is_200_true in H2. congruence.
  - intros i. rewrite poll_run. cbn [trace outcome fst snd].
    split; [reflexivity|].
    destruct (is_200 (health_response w1 i)) eqn:H.
    + pose proof (proj1 (is_200_true _) H).
      split; split; intros; congruence.
    + pose proof (proj1 (is_200_false _) H).
      split; split; intros; congruence.
  - intros i rest Hfail. rewrite health_loop_cons.
    now rewrite (proj2 (is_200_false _) Hfail).
  - unfold await_healthy. generalize (seq 0 60). intros indices.
    induction indices as [|i rest [healthy IH]]; [now exists false|].
    rewrite health_loop_cons.
    destruct (is_200 (health_response w1 i)); [now exists true|].
    now exists healthy.
Qed.

(** Refused connections and 503 answers give the same run. *)
Lemma refused_and_503_poll_alike :
  (forall i, health_response refused_world i = Returns 200%Z
             <-> health_response unavailable_world i = Returns 200%Z)
  /\ await_healthy refused_world = await_healthy unavailable_world.
Proof.
  assert (forall i, health_response refused_world i = Returns 200%Z
                    <-> health_response unavailable_world i = Returns 200%Z)
    as Hagree by (intros i; split; discriminate).
  split; [exact Hagree|].
  exact (proj1 (poll_only_200_counts refused_world unavailable_world Hagree)).
Defined.

(** C5. Whatever the display check, the display start and the certificate
    installation do (succeed, report failure, or raise), and whether or not
    the CA file exists, the Environment Preparer returns normally; the
    check, the start of Xvfb and the certificate import each run at most
    once; and the script continues with the resolution of the service
    directory, whose first print follows the Preparer's trace. *)
Theorem prepare_never_fatal (w : world) :
  outcome (prepare w) = inr tt
  /\ attempts (runs "pgrep") (trace (prepare w)) <= 1
  /\ attempts (runs "Xvfb") (trace (prepare w)) <= 1
  /\ attempts (runs "certutil") (trace (prepare w)) <= 1
  /\ exists rest,
       trace (main w) = trace (prepare w) ++ rest
       /\ match SERVICE_DIR w with
          | None =>
              rest = [EPrint "[worker] ERROR: Cannot find app_server.py in /root/service or /workspace"]
          | Some service_dir =>
              exists rest',
                rest = EPrint ("[worker] Starting FastAPI from "
                               +:+ service_dir +:+ "...") :: rest'
          end.
Proof.
  split; [apply prepare_returns|].
  split; [apply prepare_once; simpl; tauto|].
  split; [apply prepare_once; simpl; tauto|].
  split; [apply prepare_once; simpl; tauto|].
  exists (trace (after_prepare w)). rewrite main_run.
  split; [reflexivity|].
  unfold after_prepare, supervise.
  destruct (SERVICE_DIR w) as [service_dir|].
  - rewrite !trace_bind. cbn [trace print emit fst app]. eauto.
  - reflexivity.
Qed.

(** C6. The service directory is the first of [/root/service],
    [/workspace] that contains [app_server.py]; the interpreter is the first
    of [/usr/bin/python3], [/usr/local/bin/python3] that exists, and
    [sys.executable] when neither does.  Every launch of the backend in a
    run uses that interpreter and has the resolved service directory as its
    working directory, and the launch takes place as soon as the directory
    is resolved and the log sink can be created. *)
Theorem supervisor_resolution (w : world) :
  SERVICE_DIR w
  = find (fun candidate => path_exists w (candidate +:+ "/app_server.py"))
         ["/root/service"; "/workspace"]
  /\ SYSTEM_PYTHON w
     = default (sys_executable w)
         (find (path_exists w) ["/usr/bin/python3"; "/usr/local/bin/python3"])
  /\ (forall argv cwd out err env,
        In (EPopen argv cwd out err env) (trace (main w)) ->
        In "app_server.py" argv ->
        argv = [SYSTEM_PYTHON w; "app_server.py"]
        /\ cwd = SERVICE_DIR w /\ cwd <> None)
  /\ (forall service_dir,
        SERVICE_DIR w = Some service_dir ->
        makedirs_result w = Returns tt -> open_log_result w = Returns tt ->
        exists out err env,
          In (EPopen [SYSTEM_PYTHON w; "app_server.py"] (Some service_dir)
                out err env)
             (trace (main w))).
Proof.
  split; [reflexivity|]. split; [|split].
  - unfold SYSTEM_PYTHON. cbn [find].
    destruct (path_exists w "/usr/bin/python3") eqn:H0; cbn [negb default].
    + rewrite H0. reflexivity.
    + destruct (path_exists w "/usr/local/bin/python3"); reflexivity.
  - intros argv cwd out err env Hin Hentry.
    pose proof (main_emits w _ Hin) as Hall.
    inversion Hall as [e Hpre| | | | |d Hd| | | | |]; subst.
    + inversion Hpre; subst. cbn in Hentry. intuition discriminate.
    + rewrite Hd. repeat split. discriminate.
  - intros service_dir Hdir Hmk Hopen.
    exists (ToFile LOG_PATH), STDOUT,
      (Some (backend_env (setdefault "DISPLAY" ":99" (environ w)))).
    now apply main_launches.
Qed.

(** The scenario node: second directory, fallback interpreter. *)
Lemma supervisor_resolution_scenario :
  SERVICE_DIR scenario_world = Some "/workspace"
  /\ SYSTEM_PYTHON scenario_world = "/venv/bin/python"
  /\ exists out err env,
       In (EPopen ["/venv/bin/python"; "app_server.py"] (Some "/workspace")
             out err env)
          (trace (main scenario_world)).
Proof.
  destruct (supervisor_resolution scenario_world) as (_ & _ & _ & Hlaunch).
  split; [reflexivity|]. split; [reflexivity|].
  exact (Hlaunch "/workspace" eq_refl eq_refl eq_refl).
Defined.

(** C7. A configuration handed to the Router declares exactly the three
    routes [/generate], [/status], [/health], pairwise distinct, and the
    maximal queue time of the two auxiliary routes, 5.0, is strictly below
    the 180.0 of the generation route. *)
Theorem route_declarations (w : world) (c : WorkerConfig) :
  In (EWorkerRun c) (trace (main w)) ->
  map route (handlers c) = ["/generate"; "/status"; "/health"]
  /\ length (handlers c) = 3
  /\ NoDup (map route (handlers c))
  /\ Forall (fun h =>
       if String.eqb (route h) "/generate"
       then max_queue_time h = 180.0%float
       else max_queue_time h = 5.0%float
            /\ PrimFloat.ltb (max_queue_time h) 180.0%float = true)
       (handlers c).
Proof.
  intros Hin.
  pose proof (main_emits w _ Hin) as Hall.
  inversion Hall as [e Hpre| | | | | | | | | |]; subst; [inversion Hpre|].
  cbn [config handlers map length route].
  split; [reflexivity|]. split; [reflexivity|]. split.
  - repeat (constructor; [rewrite ?not_elem_of_cons; repeat split;
                             [discriminate .. | apply not_elem_of_nil]|]).
    constructor.
  - repeat constructor.
Qed.

(** The scenario node reaches the hand-off with [config]. *)
Lemma route_declarations_scenario :
  In (EWorkerRun config) (trace (main scenario_world))
  /\ map route (handlers config) = ["/generate"; "/status"; "/health"]
  /\ NoDup (map route (handlers config)).
Proof.
  assert (In (EWorkerRun config) (trace (main scenario_world))) as Hin.
  { vm_compute. do 16 right. left. reflexivity. }
  destruct (route_declarations scenario_world config Hin)
    as (Hroutes & _ & Hdistinct & _).
  split; [exact Hin|]. split; assumption.
Defined.

(** C8, as stated, fails: with [DISPLAY=:0] set in the controller's
    environment the backend is launched with [DISPLAY=:99], so it is not
    true that every launch hands the controller's own [DISPLAY] value
    (defaulted to [:99] when unset) to the child. *)
Lemma preset_display_not_passed_through :
  environ scenario_world !! "DISPLAY" = Some ":0"
  /\ ~ (forall argv cwd out err env,
          In (EPopen argv cwd out err (Some env))
             (trace (main scenario_world)) ->
          env !! "DISPLAY"
          = Some (default ":99" (environ scenario_world !! "DISPLAY"))
          /\ forall k, k <> "DISPLAY" ->
                       env !! k = environ scenario_world !! k).
Proof.
  split; [reflexivity|]. intros Hclaim.
  assert (In (EPopen [SYSTEM_PYTHON scenario_world; ENTRY_POINT]
                (Some "/workspace") (ToFile LOG_PATH) STDOUT
                (Some (backend_env
                         (setdefault "DISPLAY" ":99" (environ scenario_world)))))
             (trace (main scenario_world))) as Hin.
  { exact (main_launches scenario_world "/workspace" eq_refl eq_refl eq_refl). }
  destruct (Hclaim _ _ _ _ _ Hin) as [Hdisplay _].
  rewrite backend_env_setdefault, lookup_insert_eq in Hdisplay.
  discriminate Hdisplay.
Qed.

(** C8, amended.  Every child launched with an explicit environment gets
    the controller's environment with [DISPLAY] set to [:99]: all other
    variables are unchanged, and the child's [DISPLAY] is [:99] whether or
    not the controller's own [DISPLAY] was set. *)
Theorem backend_env_overrides_display (w : world) (argv : list string)
    (cwd : option string) (out err : redirect) (env : gmap string string) :
  In (EPopen argv cwd out err (Some env)) (trace (main w)) ->
  env = <["DISPLAY" := ":99"]> (environ w)
  /\ env !! "DISPLAY" = Some ":99"
  /\ (forall k, k <> "DISPLAY" -> env !! k = environ w !! k)
  /\ In "app_server.py" argv.
Proof.
  intros Hin. pose proof (main_emits w _ Hin) as Hall.
  inversion Hall as [e Hpre| | | | |d Hd| | | | |]; subst;
    [inversion Hpre|].
  rewrite backend_env_setdefault.
  split; [reflexivity|]. split; [apply lookup_insert_eq|].
  split; [|right; now left].
  intros k Hk. now apply lookup_insert_ne.
Qed.

(** The scenario node: [DISPLAY] is overridden, [HOME] is kept. *)
Lemma backend_env_scenario :
  exists env,
    In (EPopen ["/venv/bin/python"; "app_server.py"] (Some "/workspace")
          (ToFile LOG_PATH) STDOUT (Some env))
       (trace (main scenario_world))
    /\ env !! "DISPLAY" = Some ":99"
    /\ env !! "HOME" = Some "/root".
Proof.
  exists (backend_env (setdefault "DISPLAY" ":99" (environ scenario_world))).
  assert (In (EPopen ["/venv/bin/python"; "app_server.py"] (Some "/workspace")
                (ToFile LOG_PATH) STDOUT
                (Some (backend_env
                         (setdefault "DISPLAY" ":99" (environ scenario_world)))))
             (trace (main scenario_world))) as Hin.
  { exact (main_launches scenario_world "/workspace" eq_refl eq_refl eq_refl). }
  destruct (backend_env_overrides_display scenario_world _ _ _ _ _ Hin)
    as (_ & Hdisplay & Hothers & _).
  split; [exact Hin|]. split; [exact Hdisplay|].
  rewrite Hothers by discriminate. reflexivity.
Defined.

(** C9. The workload calculator of every declared route ignores its
    payload: on any two payloads it returns the same weight, 100.0 for
    [/generate] and 1.0 for [/status] and [/health], which is not
    negative. *)
Theorem workload_is_constant (h : HandlerConfig) (p1 p2 : json) :
  In h (handlers config) ->
  workload_calculator h p1 = workload_calculator h p2
  /\ workload_calculator h p1
     = (if String.eqb (route h) "/generate" then 100.0 else 1.0)%float
  /\ PrimFloat.leb 0%float (workload_calculator h p1) = true.
Proof.
  intros [<-|[<-|[<-|[]]]]; repeat split; reflexivity.
Qed.

(** The generation route weighs an empty and a full payload alike. *)
Lemma workload_of_generate_is_constant :
  exists h,
    In h (handlers config)
    /\ route h = "/generate"
    /\ workload_calculator h JNull
       = workload_calculator h (JObj [("prompt", JStr "a cat"); ("steps", JNum 30)])
    /\ workload_calculator h JNull = 100.0%float.
Proof.
  pose (h := {| route := "/generate";
                allow_parallel_requests := true;
                max_queue_time := 180.0%float;
                workload_calculator := fun payload => 100.0%float |}).
  assert (In h (handlers config)) as Hin by (left; reflexivity).
  destruct (workload_is_constant h JNull
              (JObj [("prompt", JStr "a cat"); ("steps", JNum 30)]) Hin)
    as (Hsame & Hweight & _).
  exists h. split; [exact Hin|]. split; [reflexivity|].
  split; [exact Hsame | exact Hweight].
Defined.

(** C10. When the health gate times out, the controller exits with status
    1 whatever happens in the diagnostic step: flushing, reopening or
    reading the log sink may raise, the [try] block then ends silently, and
    [sys.exit(1)] is reached all the same. *)
Theorem timeout_exit_ignores_diagnostics (w : world) :
  (forall i, i < 60 -> health_response w i <> Returns 200%Z) ->
  outcome (print_log_tail w) = inr tt
  /\ outcome (wait_for_health w) = inl (SystemExit 1)
  /\ exit_code (outcome (wait_for_health w)) = 1%Z
  /\ (forall service_dir,
        SERVICE_DIR w = Some service_dir ->
        makedirs_result w = Returns tt ->
        open_log_result w = Returns tt ->
        backend_spawn w = Returns tt ->
        outcome (main w) = inl (SystemExit 1)
        /\ exit_code (outcome (main w)) = 1%Z).
Proof.
  intros Hfail.
  pose proof (wait_for_health_timeout w Hfail) as Hwait.
  split; [apply print_log_tail_returns|].
  split; [now rewrite Hwait|]. split; [now rewrite Hwait|].
  intros service_dir Hdir Hmk Hopen Hspawn.
  assert (outcome (main w) = inl (SystemExit 1)) as Hmain.
  { rewrite main_run. cbn [outcome snd]. unfold after_prepare.
    rewrite outcome_bind,
      (supervise_launches w _ service_dir Hdir Hmk Hopen Hspawn).
    cbn [outcome snd]. now rewrite outcome_bind, Hwait. }
  split; [exact Hmain | now rewrite Hmain].
Qed.

(** A log sink that cannot be flushed does not change the exit. *)
Lemma timeout_exit_with_unflushable_log :
  (forall i, i < 60 -> health_response unavailable_world i <> Returns 200%Z)
  /\ log_flush unavailable_world = Raises denied
  /\ printed (trace (print_log_tail unavailable_world)) = []
  /\ outcome (main unavailable_world) = inl (SystemExit 1)
  /\ exit_code (outcome (main unavailable_world)) = 1%Z.
Proof.
  assert (forall i, i < 60 ->
            health_response unavailable_world i <> Returns 200%Z) as Hfail
    by (intros i _; discriminate).
  destruct (timeout_exit_ignores_diagnostics unavailable_world Hfail)
    as (_ & _ & _ & Hmain).
  destruct (Hmain "/root/service" eq_refl eq_refl eq_refl eq_refl)
    as (Hout & Hcode).
  split; [exact Hfail|]. split; [reflexivity|]. split; [reflexivity|].
  split; assumption.
Defined.

(** ** Further properties of the script *)

(** Either some poll among the first [len] answers 200, and then there is
    a first one, or none does. *)
Lemma first_200 (w : world) (len : nat) :
  (exists n, n < len
             /\ (forall i, i < n -> health_response w i <> Returns 200%Z)
             /\ health_response w n = Returns 200%Z)
  \/ (forall i, i < len -> health_response w i <> Returns 200%Z).
Proof.
  induction len as [|len [Hfound|Hnone]].
  - right. intros i Hi. lia.
  - left. destruct Hfound as (n & Hn & Hrest). exists n. split; [lia | exact Hrest].
  - destruct (is_200 (health_response w len)) eqn:Hlen.
    + left. exists len. split; [lia|]. split; [exact Hnone|].
      now apply is_200_true.
    + right. intros i Hi.
      destruct (Nat.eq_dec i len) as [->|Hne];
        [now apply is_200_false | apply Hnone; lia].
Qed.

Lemma main_cases (w : world) : main_case w.
Proof.
  pose proof (main_run w) as Hrun. unfold after_prepare in Hrun.
  destruct (SERVICE_DIR w) as [service_dir|] eqn:Hdir.
  2:{ apply case_no_entry; [exact Hdir|]. rewrite Hrun.
      now rewrite (bind_stops _ _ _ _ (supervise_missing w _ Hdir)). }
  destruct (makedirs_result w) as [[]|e] eqn:Hmk.
  2:{ apply (case_makedirs_raises w service_dir e); try assumption.
      rewrite Hrun. unfold supervise, perform, print, emit.
      now rewrite Hdir, Hmk. }
  destruct (open_log_result w) as [[]|e] eqn:Hopen.
  2:{ apply (case_open_raises w service_dir e); try assumption.
      rewrite Hrun. unfold supervise, perform, print, emit.
      now rewrite Hdir, Hmk, Hopen. }
  destruct (backend_spawn w) as [[]|e] eqn:Hspawn.
  2:{ apply (case_spawn_raises w service_dir e); try assumption.
      rewrite Hrun. unfold supervise, server_proc, perform, print, emit.
      now rewrite Hdir, Hmk, Hopen, Hspawn. }
  rewrite (bind_returns _ _ _ _
             (supervise_launches w _ service_dir Hdir Hmk Hopen Hspawn)) in Hrun.
  destruct (first_200 w 60) as [(n & Hn & Hfail & Hok)|Hfail].
  2:{ apply (case_timeout w service_dir); try assumption.
      rewrite Hrun.
      now rewrite (bind_stops _ _ _ _ (wait_for_health_timeout w Hfail)). }
  rewrite (bind_returns _ _ _ _ (wait_for_health_ready w n Hn Hfail Hok)) in Hrun.
  unfold run_worker, perform, emit in Hrun.
  destruct (vastai_import w) as [[]|e] eqn:Himport.
  - apply (case_handoff w service_dir n); assumption.
  - apply (case_import_raises w service_dir n e); assumption.
Qed.

(** *** Counting events *)

Lemma attempts_cons (p : event -> bool) (e : event) (tr : list event) :
  attempts p (e :: tr) = (if p e then 1 else 0) + attempts p tr.
Proof. unfold attempts. cbn [List.filter]. now destruct (p e). Qed.

Lemma attempts_ticks (p : event -> bool) (n : nat) :
  attempts p (ticks n) = n * attempts p [poll_event; ESleep 1].
Proof.
  induction n as [|n IH]; [reflexivity|].
  cbn [ticks]. rewrite !attempts_cons, IH, !attempts_cons.
  replace (attempts p []) with 0 by reflexivity.
  destruct (p poll_event), (p (ESleep 1)); lia.
Qed.

Lemma attempts_witness (p : event -> bool) (e : event) (tr : list event) :
  In e tr -> p e = true -> 1 <= attempts p tr.
Proof.
  intros Hin Hp. induction tr as [|e' tr IH]; [destruct Hin|].
  rewrite attempts_cons. destruct Hin as [->|Hin].
  - rewrite Hp. lia.
  - specialize (IH Hin). lia.
Qed.

Lemma slept_none (P : event -> Prop) (tr : list event) :
  Forall P tr -> (forall e, P e -> is_sleep e = false) -> slept tr = 0%Z.
Proof.
  intros Hall Hp. induction Hall as [|e rest He _ IH]; [reflexivity|].
  specialize (Hp e He). destruct e; cbn [slept]; try exact IH.
  discriminate Hp.
Qed.

(** *** Traces of the phases *)

Lemma start_xvfb_trace (w : world) :
  trace (start_xvfb w)
  = match pgrep_result w with
    | Raises e =>
        [ERun pgrep_argv 5; EPrint ("[worker] Xvfb check failed: " +:+ exn_str e)]
    | Returns returncode =>
        if (returncode =? 0)%Z
        then [ERun pgrep_argv 5; EPrint "[worker] Xvfb already running"]
        else match xvfb_spawn w with
             | Returns _ =>
                 [ERun pgrep_argv 5; EPrint "[worker] Starting Xvfb...";
                  EPopen xvfb_argv None DEVNULL DEVNULL None; ESleep 1]
             | Raises e =>
                 [ERun pgrep_argv 5; EPrint "[worker] Starting Xvfb...";
                  EPopen xvfb_argv None DEVNULL DEVNULL None;
                  EPrint ("[worker] Xvfb check failed: " +:+ exn_str e)]
             end
    end.
Proof.
  unfold start_xvfb, perform, print, sleep, emit.
  destruct (pgrep_result w) as [returncode|e]; cbn [bind try_except];
    [|reflexivity].
  destruct (returncode =? 0)%Z; cbn [negb bind try_except]; [reflexivity|].
  destruct (xvfb_spawn w); reflexivity.
Qed.

Lemma install_ca_trace (w : world) :
  trace (install_ca w)
  = if path_exists w CA_CERT then
      match certutil_result w with
      | Returns _ =>
          [ERun certutil_argv 10; EPrint "[worker] mitmproxy CA installed"]
      | Raises _ => [ERun certutil_argv 10]
      end
    else [].
Proof.
  unfold install_ca, perform, print, emit.
  destruct (path_exists w CA_CERT); [|reflexivity].
  destruct (certutil_result w); reflexivity.
Qed.

Lemma prepare_trace (w : world) :
  trace (prepare w) = trace (start_xvfb w) ++ trace (install_ca w).
Proof. unfold prepare. now rewrite trace_bind, start_xvfb_returns. Qed.

Lemma print_log_tail_trace (w : world) :
  trace (print_log_tail w)
  = match log_flush w, log_reopen w, log_readlines w with
    | Raises _, _, _ => [EFlush LOG_PATH]
    | Returns _, Raises _, _ => [EFlush LOG_PATH; EOpen LOG_PATH "r"]
    | Returns _, Returns _, Raises _ =>
        [EFlush LOG_PATH; EOpen LOG_PATH "r"; EReadlines LOG_PATH]
    | Returns _, Returns _, Returns lines =>
        EFlush LOG_PATH :: EOpen LOG_PATH "r" :: EReadlines LOG_PATH
          :: map (fun line => EPrint (log_line line)) (last_n 20 lines)
    end.
Proof.
  unfold print_log_tail, perform.
  destruct (log_flush w), (log_reopen w), (log_readlines w) as [lines|];
    cbn [bind try_except ret]; try reflexivity.
  rewrite print_each_run. reflexivity.
Qed.

Lemma print_log_tail_diagnostic (w : world) :
  Forall diagnostic (trace (print_log_tail w)).
Proof.
  rewrite print_log_tail_trace.
  destruct (log_flush w), (log_reopen w), (log_readlines w) as [lines|];
    repeat (constructor; try constructor).
  apply Forall_map, Forall_forall. intros line _. constructor.
Qed.

Lemma launch_is_backend_launch (w : world) (service_dir : string) :
  attempts is_backend_launch (launch_trace w service_dir) = 1.
Proof.
  unfold launch_trace. rewrite !attempts_cons. cbn [is_backend_launch existsb].
  rewrite String.eqb_refl, orb_true_r. reflexivity.
Qed.

Lemma slept_prepare (w : world) :
  slept (trace (prepare w))
  = match pgrep_result w, xvfb_spawn w with
    | Returns returncode, Returns _ => if (returncode =? 0)%Z then 0%Z else 1%Z
    | _, _ => 0%Z
    end.
Proof.
  rewrite prepare_trace, slept_app, start_xvfb_trace, install_ca_trace.
  assert (slept (if path_exists w CA_CERT
                 then match certutil_result w with
                      | Returns _ =>
                          [ERun certutil_argv 10;
                           EPrint "[worker] mitmproxy CA installed"]
                      | Raises _ => [ERun certutil_argv 10]
                      end
                 else []) = 0%Z) as ->
    by (destruct (path_exists w CA_CERT), (certutil_result w); reflexivity).
  destruct (pgrep_result w) as [returncode|e]; [|destruct (xvfb_spawn w); reflexivity].
  destruct (returncode =? 0)%Z, (xvfb_spawn w); reflexivity.
Qed.

(** Normalises the count of events in a run given by [main_cases]. *)
Ltac count_events w :=
  unfold ready_trace, timeout_trace;
  cbn [trace outcome fst snd];
  repeat rewrite ?attempts_app, ?attempts_cons, ?attempts_ticks,
                 ?launch_is_backend_launch;
  rewrite ?(attempts_none is_poll prepared _ (prepare_alphabet w)),
          ?(attempts_none is_backend_launch prepared _ (prepare_alphabet w)),
          ?(attempts_none is_handoff prepared _ (prepare_alphabet w)),
          ?(attempts_none is_sink_open prepared _ (prepare_alphabet w)),
          ?(attempts_none is_log_read prepared _ (prepare_alphabet w)),
          ?(attempts_none is_poll diagnostic _ (print_log_tail_diagnostic w)),
          ?(attempts_none is_backend_launch diagnostic _
              (print_log_tail_diagnostic w)),
          ?(attempts_none is_handoff diagnostic _ (print_log_tail_diagnostic w)),
          ?(attempts_none is_sink_open diagnostic _
              (print_log_tail_diagnostic w)),
          ?(attempts_none is_sleep diagnostic _ (print_log_tail_diagnostic w))
    by (intros ? []; reflexivity);
  unfold launch_trace, attempts; cbn [List.filter length is_poll is_sleep
    is_handoff is_backend_launch is_sink_open is_log_read poll_event existsb
    String.eqb Ascii.eqb Bool.eqb andb orb LOG_PATH ENTRY_POINT].

(** *** Hand-off and exit status *)



(** Splits a goal about [main w] into the seven shapes of a run. *)
Ltac by_main_cases w :=
  destruct (main_cases w)
    as [Cdir Hmain|dir exc Cdir Cmk Hmain|dir exc Cdir Cmk Copen Hmain
       |dir exc Cdir Cmk Copen Cspawn Hmain
       |dir Cdir Cmk Copen Cspawn Cfail Hmain
       |dir idx exc Cdir Cmk Copen Cspawn Cidx Cfail Cok Cimport Hmain
       |dir idx Cdir Cmk Copen Cspawn Cidx Cfail Cok Cimport Hmain].




(** X4. If the log directory or the log sink cannot be created, the
    exception is not caught: the controller stops on it with exit status 1
    before launching the backend, polling or handing over. *)
Theorem log_sink_failure_aborts_launch (w : world) (service_dir : string)
    (e : exn) :
  SERVICE_DIR w = Some service_dir ->
  makedirs_result w = Raises e
  \/ (makedirs_result w = Returns tt /\ open_log_result w = Raises e) ->
  outcome (main w) = inl (Raised e)
  /\ exit_code (outcome (main w)) = 1%Z
  /\ attempts is_backend_launch (trace (main w)) = 0
  /\ attempts is_poll (trace (main w)) = 0
  /\ attempts is_handoff (trace (main w)) = 0.
Proof.
  intros Hd Hsink.
  by_main_cases w; rewrite Hmain;
    try (exfalso; destruct Hsink as [Hsink|[Hsink1 Hsink2]]; congruence).
  - assert (exc = e) as -> by (destruct Hsink as [?|[? ?]]; congruence).
    count_events w. repeat split; lia.
  - assert (exc = e) as -> by (destruct Hsink as [?|[? ?]]; congruence).
    count_events w. repeat split; lia.
Qed.

(** A read-only node stops on the [PermissionError] of [os.makedirs]. *)
Lemma readonly_node_aborts :
  outcome (main readonly_world) = inl (Raised denied)
  /\ attempts is_backend_launch (trace (main readonly_world)) = 0.
Proof.
  destruct (log_sink_failure_aborts_launch readonly_world "/root/service"
              denied eq_refl (or_introl eq_refl))
    as (Hout & _ & Hlaunch & _).
  split; assumption.
Defined.

(** X5. If [subprocess.Popen] of the backend raises, the exception is not
    caught: the launch was attempted once, but no health poll is issued,
    the log is not read back, nothing is handed over and the exit status
    is 1. *)
Theorem spawn_failure_skips_health_gate (w : world) (service_dir : string)
    (e : exn) :
  SERVICE_DIR w = Some service_dir ->
  makedirs_result w = Returns tt ->
  open_log_result w = Returns tt ->
  backend_spawn w = Raises e ->
  main w = (trace (prepare w) ++ launch_trace w service_dir, inl (Raised e))
  /\ exit_code (outcome (main w)) = 1%Z
  /\ attempts is_backend_launch (trace (main w)) = 1
  /\ attempts is_poll (trace (main w)) = 0
  /\ attempts is_log_read (trace (main w)) = 0
  /\ attempts is_handoff (trace (main w)) = 0.
Proof.
  intros Hd Hm Ho Hs.
  by_main_cases w; try congruence.
  assert (dir = service_dir) as -> by congruence.
  assert (exc = e) as -> by congruence.
  rewrite Hmain. split; [reflexivity|]. count_events w. repeat split; lia.
Qed.

(** A node that refuses to execute the interpreter is never polled. *)
Lemma unlaunchable_node_is_not_polled :
  outcome (main unlaunchable_world) = inl (Raised denied)
  /\ attempts is_backend_launch (trace (main unlaunchable_world)) = 1
  /\ attempts is_poll (trace (main unlaunchable_world)) = 0.
Proof.
  destruct (spawn_failure_skips_health_gate unlaunchable_world
              "/root/service" denied eq_refl eq_refl eq_refl eq_refl)
    as (Hmain & _ & Hlaunch & Hpoll & _).
  split; [now rewrite Hmain|]. split; assumption.
Defined.

(** X6. If the backend is healthy but [vastai] cannot be imported, the
    controller stops on the import error with exit status 1: the backend
    has been launched and declared healthy, and no hand-off follows. *)
Theorem import_failure_after_ready (w : world) (service_dir : string)
    (n : nat) (e : exn) :
  SERVICE_DIR w = Some service_dir ->
  makedirs_result w = Returns tt ->
  open_log_result w = Returns tt ->
  backend_spawn w = Returns tt ->
  n < 60 ->
  (forall i, i < n -> health_response w i <> Returns 200%Z) ->
  health_response w n = Returns 200%Z ->
  vastai_import w = Raises e ->
  main w
  = (trace (prepare w) ++ launch_trace w service_dir ++ ready_trace n
       ++ [EImport "vastai"],
     inl (Raised e))
  /\ exit_code (outcome (main w)) = 1%Z
  /\ attempts is_backend_launch (trace (main w)) = 1
  /\ attempts is_handoff (trace (main w)) = 0.
Proof.
  intros Hdir Hmk Hopen Hspawn Hn Hfail Hok Himport.
  assert (main w
          = (trace (prepare w) ++ launch_trace w service_dir ++ ready_trace n
               ++ [EImport "vastai"],
             inl (Raised e))) as Hmain.
  { rewrite main_run. unfold after_prepare.
    rewrite (bind_returns _ _ _ _
               (supervise_launches w _ service_dir Hdir Hmk Hopen Hspawn)).
    rewrite (bind_returns _ _ _ _ (wait_for_health_ready w n Hn Hfail Hok)).
    unfold run_worker, perform, emit. rewrite Himport. reflexivity. }
  rewrite Hmain. split; [reflexivity|]. split; [reflexivity|].
  count_events w. split; lia.
Qed.

(** A healthy node without the [vastai] package. *)
Lemma missing_vastai_stops_after_ready :
  exit_code (outcome (main no_vastai_world)) = 1%Z
  /\ attempts is_backend_launch (trace (main no_vastai_world)) = 1
  /\ attempts is_handoff (trace (main no_vastai_world)) = 0.
Proof.
  assert (forall i, i < 0 ->
            health_response no_vastai_world i <> Returns 200%Z) as Hfail
    by (intros i Hi; lia).
  assert (0 < 60) as Hn by lia.
  destruct (import_failure_after_ready no_vastai_world "/root/service" 0
              (Exn "ModuleNotFoundError" "No module named 'vastai'")
              eq_refl eq_refl eq_refl eq_refl Hn Hfail eq_refl eq_refl)
    as (_ & Hcode & Hlaunch & Hhand).
  split; [exact Hcode|]. split; assumption.
Defined.

(** *** Order of the effects *)

Lemma precedes_absent (p q : event -> bool) (tr : list event) :
  attempts q tr = 0 -> precedes p q tr.
Proof.
  intros Hnone before e after -> Hq.
  rewrite attempts_app, attempts_cons, Hq in Hnone. lia.
Qed.

Lemma precedes_app_l (p q : event -> bool) (t1 t2 : list event) (e1 : event) :
  precedes p q t1 -> In e1 t1 -> p e1 = true -> precedes p q (t1 ++ t2).
Proof.
  intros H1 Hin Hp before e after Heq Hq.
  apply app_eq_app in Heq as [l [[-> Hl]|[-> Hl]]].
  - destruct l as [|e' l].
    + exists e1. split; [|exact Hp]. rewrite app_nil_r in Hin. exact Hin.
    + cbn in Hl. injection Hl as <- ->.
      exact (H1 before e l eq_refl Hq).
  - exists e1. split; [|exact Hp]. apply in_or_app. now left.
Qed.

Lemma precedes_app_r (p q : event -> bool) (t1 t2 : list event) :
  attempts q t1 = 0 -> precedes p q t2 -> precedes p q (t1 ++ t2).
Proof.
  intros Hnone H2 before e after Heq Hq.
  apply app_eq_app in Heq as [l [[-> Hl]|[-> Hl]]].
  - destruct l as [|e' l].
    + cbn in Hl. destruct (H2 [] e after (eq_sym Hl) Hq) as (e' & [] & _).
    + cbn in Hl. injection Hl as <- ->.
      rewrite attempts_app, attempts_cons, Hq in Hnone. lia.
  - destruct (H2 l e after Hl Hq) as (e' & Hin & Hp).
    exists e'. split; [|exact Hp]. apply in_or_app. now right.
Qed.

(** X7. In every run the effects come in the order the phases need: the
    log sink is opened for writing before the backend is launched, the
    backend is launched before the first health poll, and a health poll
    precedes the hand-off to the Vast worker. *)
Theorem effects_are_ordered (w : world) :
  precedes is_sink_open is_backend_launch (trace (main w))
  /\ precedes is_backend_launch is_poll (trace (main w))
  /\ precedes is_poll is_handoff (trace (main w)).
Proof.
  assert (forall p q tr, attempts q tr = 0 -> precedes p q tr) as Habsent
    by exact precedes_absent.
  assert (forall d, precedes is_sink_open is_backend_launch
                      (launch_trace w d)) as Hsink.
  { intros d before e after Heq Hq. unfold launch_trace in Heq.
    do 3 (destruct before as [|? before];
          [cbn in Heq; injection Heq as <- _; discriminate Hq|];
          cbn in Heq; injection Heq as <- Heq).
    exists (EOpen LOG_PATH "w"). split; [cbn; tauto | reflexivity]. }
  assert (forall d, In (EOpen LOG_PATH "w") (launch_trace w d)) as Hopen_in
    by (intros d; cbn; tauto).
  assert (forall d,
            In (EPopen [SYSTEM_PYTHON w; ENTRY_POINT] (Some d) (ToFile LOG_PATH)
                  STDOUT
                  (Some (backend_env (setdefault "DISPLAY" ":99" (environ w)))))
               (launch_trace w d)) as Hlaunch_in
    by (intros d; cbn; tauto).
  assert (forall d msg env,
            is_backend_launch
              (EPopen [SYSTEM_PYTHON w; ENTRY_POINT] d msg STDOUT env) = true)
    as Hlaunch
    by (intros; cbn [is_backend_launch existsb];
        now rewrite String.eqb_refl, orb_true_r).
  by_main_cases w; rewrite Hmain; cbn [trace fst];
    try (repeat split; apply Habsent; count_events w; lia).
  - (* the launch raises *)
    split; [|split; apply Habsent; count_events w; lia].
    apply precedes_app_r; [count_events w; lia | apply Hsink].
  - (* time-out *)
    split; [|split; [|apply Habsent; count_events w; lia]].
    + apply precedes_app_r; [count_events w; lia|].
      eapply precedes_app_l; [apply Hsink | apply Hopen_in | reflexivity].
    + apply precedes_app_r; [count_events w; lia|].
      eapply precedes_app_l;
        [apply Habsent; count_events w; lia | apply Hlaunch_in | apply Hlaunch].
  - (* the import raises *)
    split; [|split; [|apply Habsent; count_events w; lia]].
    + apply precedes_app_r; [count_events w; lia|].
      eapply precedes_app_l; [apply Hsink | apply Hopen_in | reflexivity].
    + apply precedes_app_r; [count_events w; lia|].
      eapply precedes_app_l;
        [apply Habsent; count_events w; lia | apply Hlaunch_in | apply Hlaunch].
  - (* hand-off *)
    split; [|split].
    + apply precedes_app_r; [count_events w; lia|].
      eapply precedes_app_l; [apply Hsink | apply Hopen_in | reflexivity].
    + apply precedes_app_r; [count_events w; lia|].
      eapply precedes_app_l;
        [apply Habsent; count_events w; lia | apply Hlaunch_in | apply Hlaunch].
    + rewrite !app_assoc.
      eapply (precedes_app_l _ _ _ _ poll_event);
        [apply Habsent; count_events w; lia | | reflexivity].
      unfold ready_trace. apply in_or_app. right.
      right. apply in_or_app. right. now left.
Qed.

(** *** The Environment Preparer in detail *)

(** X8. Xvfb is started exactly when [pgrep] returns a non-zero status: it
    is not started when [pgrep] finds it running, nor when the check itself
    raises.  The Preparer sleeps its one second only after a successful
    start, and a failure of the check or of the start is reported as
    [Xvfb check failed] with the text of the exception. *)
Theorem xvfb_started_iff_not_found (w : world) :
  (attempts (runs "Xvfb") (trace (prepare w)) = 1
   <-> exists returncode,
         pgrep_result w = Returns returncode /\ returncode <> 0%Z)
  /\ (slept (trace (prepare w)) = 1%Z
      <-> (exists returncode,
             pgrep_result w = Returns returncode /\ returncode <> 0%Z)
          /\ xvfb_spawn w = Returns tt)
  /\ (slept (trace (prepare w)) = 0%Z \/ slept (trace (prepare w)) = 1%Z)
  /\ (forall e,
        pgrep_result w = Raises e
        \/ ((exists returncode,
               pgrep_result w = Returns returncode /\ returncode <> 0%Z)
            /\ xvfb_spawn w = Raises e) ->
        In ("[worker] Xvfb check failed: " +:+ exn_str e)
           (printed (trace (prepare w)))).
Proof.
  rewrite slept_prepare, prepare_trace, attempts_app, printed_app.
  rewrite (install_ca_once w "Xvfb") by (cbn; tauto).
  rewrite start_xvfb_trace. cbn [String.eqb Ascii.eqb Bool.eqb andb].
  destruct (pgrep_result w) as [returncode|e0].
  - destruct (returncode =? 0)%Z eqn:Hrc.
    + apply Z.eqb_eq in Hrc. subst returncode.
      split; [split; [discriminate | intros (rc & [= <-] & Hne); congruence]|].
      split; [destruct (xvfb_spawn w); (split;
               [discriminate | intros [(rc & [= <-] & Hne) _]; congruence])|].
      split; [destruct (xvfb_spawn w); now left|].
      intros e [Hraise|[(rc & [= <-] & Hne) _]]; congruence.
    + apply Z.eqb_neq in Hrc.
      destruct (xvfb_spawn w) as [[]|e0].
      * split; [split; [intros _; now exists returncode | reflexivity]|].
        split; [split; [intros _; split; [now exists returncode | reflexivity]
                       | reflexivity]|].
        split; [now right|].
        intros e [Hraise|[_ Hraise]]; discriminate Hraise.
      * split; [split; [intros _; now exists returncode | reflexivity]|].
        split; [split; [discriminate | intros [_ Hs]; discriminate Hs]|].
        split; [now left|].
        intros e [Hraise|[_ [= <-]]]; [discriminate Hraise|].
        apply in_or_app. left. cbn. tauto.
  - split; [split; [discriminate | intros (rc & Hrc & _); discriminate Hrc]|].
    split; [split; [discriminate
                   | intros [(rc & Hrc & _) _]; discriminate Hrc]|].
    split; [now left|].
    intros e [[= <-]|[(rc & Hrc & _) _]]; [|discriminate Hrc].
    apply in_or_app. left. cbn. tauto.
Qed.

Lemma start_xvfb_never_reports_ca (w : world) :
  ~ In "[worker] mitmproxy CA installed" (printed (trace (start_xvfb w))).
Proof.
  rewrite start_xvfb_trace.
  destruct (pgrep_result w) as [returncode|e];
    [destruct (returncode =? 0)%Z; [|destruct (xvfb_spawn w)]|];
    cbn; intuition discriminate.
Qed.

(** X9. The certificate import runs exactly when the CA file exists, and
    [mitmproxy CA installed] is printed exactly when it ran and [certutil]
    came back, whatever status it returned; an exception of the import is
    swallowed without a message. *)
Theorem ca_install_is_best_effort (w : world) :
  (attempts (runs "certutil") (trace (prepare w)) = 1
   <-> path_exists w CA_CERT = true)
  /\ (In "[worker] mitmproxy CA installed" (printed (trace (prepare w)))
      <-> path_exists w CA_CERT = true
          /\ exists returncode, certutil_result w = Returns returncode)
  /\ (forall e,
        path_exists w CA_CERT = true -> certutil_result w = Raises e ->
        printed (trace (install_ca w)) = []
        /\ outcome (install_ca w) = inr tt).
Proof.
  split; [|split].
  - rewrite prepare_trace, attempts_app, start_xvfb_no_certutil.
    rewrite (install_ca_once w "certutil") by (cbn; tauto).
    cbn [String.eqb Ascii.eqb Bool.eqb andb].
    destruct (path_exists w CA_CERT); split; (reflexivity || discriminate).
  - rewrite prepare_trace, printed_app, in_app_iff, install_ca_trace.
    pose proof (start_xvfb_never_reports_ca w) as Hxvfb.
    destruct (path_exists w CA_CERT);
      [destruct (certutil_result w) as [returncode|e]|]; split.
    + intros _. split; [reflexivity | now exists returncode].
    + intros _. right. cbn. tauto.
    + intros [Hin|Hin]; [contradiction | cbn in Hin; tauto].
    + intros [_ (rc & Hrc)]. discriminate Hrc.
    + intros [Hin|Hin]; [contradiction | destruct Hin].
    + intros [Hex _]. discriminate Hex.
  - intros e Hex Hraise. rewrite install_ca_trace, install_ca_returns, Hex, Hraise.
    split; reflexivity.
Qed.

(** *** The health gate and the diagnostics in detail *)

(** X10. The verdict of the health gate: [healthy] ends up [True] exactly
    when one of the 60 polls answers 200 (a later answer is never asked
    for).  Every unsuccessful poll is followed by a sleep of one second,
    the last one included, so a time-out has slept the full 60 seconds,
    and at most 60 polls are issued. *)
Theorem health_gate_verdict (w : world) :
  exists healthy,
    outcome (await_healthy w) = inr healthy
    /\ (healthy = true
        <-> exists n, n < 60 /\ health_response w n = Returns 200%Z)
    /\ attempts is_poll (trace (await_healthy w))
       = attempts is_sleep (trace (await_healthy w))
         + (if healthy then 1 else 0)
    /\ attempts is_poll (trace (await_healthy w)) <= 60
    /\ slept (trace (await_healthy w))
       = Z.of_nat (attempts is_sleep (trace (await_healthy w)))
    /\ (healthy = false -> slept (trace (await_healthy w)) = 60%Z).
Proof.
  destruct (first_200 w 60) as [(n & Hn & Hfail & Hok)|Hfail].
  - exists true. rewrite (await_healthy_success w n Hn Hfail Hok).
    cbn [trace outcome fst snd].
    rewrite !attempts_app, polls_ticks, sleeps_ticks, slept_app, slept_ticks.
    split; [reflexivity|].
    split; [split; [intros _; now exists n | reflexivity]|].
    split; [cbn; lia|]. split; [cbn; lia|]. split; [cbn; lia | discriminate].
  - exists false. rewrite (await_healthy_timeout w Hfail).
    cbn [trace outcome fst snd].
    rewrite polls_ticks, sleeps_ticks, slept_ticks.
    split; [reflexivity|].
    split; [split; [discriminate
                   | intros (n & Hn & Hok); now destruct (Hfail n Hn)]|].
    split; [lia|]. split; [lia|]. split; [lia | reflexivity].
Qed.


(** X12. The log sink is read back only in a run whose health gate timed
    out: if a run flushes, reopens or reads the log, then the backend was
    launched, none of the 60 polls answered 200 and the run ends in
    [sys.exit(1)]. *)
Theorem log_read_only_after_timeout (w : world) (e : event) :
  In e (trace (main w)) -> is_log_read e = true ->
  (forall i, i < 60 -> health_response w i <> Returns 200%Z)
  /\ backend_spawn w = Returns tt
  /\ outcome (main w) = inl (SystemExit 1)
  /\ attempts is_handoff (trace (main w)) = 0.
Proof.
  intros Hin Hread.
  pose proof (attempts_witness is_log_read _ _ Hin Hread) as Hcount.
  by_main_cases w; rewrite Hmain in Hcount |- *;
    try (exfalso; revert Hcount; count_events w; lia).
  split; [assumption|]. split; [assumption|]. split; [reflexivity|].
  count_events w. lia.
Qed.

(** A backend that never listens makes the controller read the log. *)
Lemma log_read_on_refused_node :
  In (EReadlines LOG_PATH) (trace (main refused_world))
  /\ outcome (main refused_world) = inl (SystemExit 1).
Proof.
  assert (In (EReadlines LOG_PATH) (trace (main refused_world))) as Hin.
  { rewrite main_run. apply in_or_app. right.
    unfold after_prepare. rewrite trace_bind. apply in_or_app. right.
    rewrite (supervise_launches refused_world _ "/root/service"
               eq_refl eq_refl eq_refl eq_refl).
    cbn [outcome snd]. rewrite trace_bind. apply in_or_app. left.
    assert (forall i, i < 60 ->
              health_response refused_world i <> Returns 200%Z) as Hfail
      by (intros i _; discriminate).
    rewrite (wait_for_health_timeout refused_world Hfail). cbn [trace fst].
    right. apply in_or_app. right. right.
    rewrite print_log_tail_trace. cbn. tauto. }
  destruct (log_read_only_after_timeout refused_world _ Hin eq_refl)
    as (_ & _ & Hout & _).
  split; assumption.
Defined.

(** *** Child processes *)




(** X14. The environment handed to the backend is the controller's own
    (after [DISPLAY] has been defaulted) exactly when [DISPLAY] was unset
    or already [:99]; in every case both environments define the same
    variables. *)
Theorem backend_env_is_controller_env_iff (w : world) (argv : list string)
    (cwd : option string) (out err : redirect) (env : gmap string string) :
  In (EPopen argv cwd out err (Some env)) (trace (main w)) ->
  (env = setdefault "DISPLAY" ":99" (environ w)
   <-> environ w !! "DISPLAY" = None \/ environ w !! "DISPLAY" = Some ":99")
  /\ dom env = dom (setdefault "DISPLAY" ":99" (environ w))
  /\ setdefault "DISPLAY" ":99" (environ w) !! "DISPLAY"
     = Some (default ":99" (environ w !! "DISPLAY")).
Proof.
  intros Hin. pose proof (main_emits w _ Hin) as Hem.
  inversion Hem as [e Hpre| | | | |d Hd| | | | |]; subst; [inversion Hpre|].
  rewrite backend_env_setdefault. unfold setdefault.
  destruct (environ w !! "DISPLAY") as [display|] eqn:Hdisplay.
  - split; [split|split].
    + intros Heq. right.
      assert (<["DISPLAY" := ":99"]> (environ w) !! "DISPLAY"
              = environ w !! "DISPLAY") as Hlook by (now rewrite Heq).
      rewrite lookup_insert_eq, Hdisplay in Hlook. now injection Hlook as <-.
    + intros [Hnone|Hsome]; [discriminate Hnone|].
      apply insert_id. congruence.
    + apply dom_insert_lookup_L. eauto.
    + exact Hdisplay.
  - split; [split; [intros _; now left | reflexivity]|].
    split; [reflexivity | apply lookup_insert_eq].
Qed.

(** With [DISPLAY=:0] the backend's environment differs from the
    controller's. *)
Lemma backend_env_differs_on_scenario_node :
  exists env,
    In (EPopen ["/venv/bin/python"; "app_server.py"] (Some "/workspace")
          (ToFile LOG_PATH) STDOUT (Some env))
       (trace (main scenario_world))
    /\ env <> setdefault "DISPLAY" ":99" (environ scenario_world)
    /\ dom env = dom (environ scenario_world).
Proof.
  pose proof (main_launches scenario_world "/workspace"
                eq_refl eq_refl eq_refl) as Hin.
  destruct (backend_env_is_controller_env_iff scenario_world _ _ _ _ _ Hin)
    as (Hiff & Hdom & _).
  eexists. split; [exact Hin|]. split.
  - intros Heq. apply Hiff in Heq as [Hnone|Hsome]; discriminate.
  - exact Hdom.
Defined.

(** *** Bounds and messages of a whole run *)

Lemma slept_prepare_bounds (w : world) :
  (0 <= slept (trace (prepare w)) <= 1)%Z.
Proof.
  rewrite slept_prepare.
  destruct (pgrep_result w) as [returncode|e]; [|lia].
  destruct (xvfb_spawn w); [|lia]. destruct (returncode =? 0)%Z; lia.
Qed.

Lemma slept_launch (w : world) (service_dir : string) (tr : list event) :
  slept (launch_trace w service_dir ++ tr) = slept tr.
Proof. reflexivity. Qed.

Lemma slept_ready (n : nat) (tr : list event) :
  slept (ready_trace n ++ tr) = (Z.of_nat n + slept tr)%Z.
Proof.
  unfold ready_trace. rewrite <- app_comm_cons. cbn [slept].
  rewrite <- app_assoc, slept_app, slept_ticks. cbn [app slept poll_event]. lia.
Qed.

Lemma slept_timeout (w : world) : slept (timeout_trace w) = 60%Z.
Proof.
  unfold timeout_trace. cbn [slept]. rewrite slept_app, slept_ticks.
  cbn [slept].
  rewrite (slept_none diagnostic _ (print_log_tail_diagnostic w))
    by (intros ? []; reflexivity).
  reflexivity.
Qed.

(** X15. Whatever the world does, one run launches the backend at most
    once, opens the log sink for writing at most once, polls the health
    endpoint at most 60 times, hands over at most once and spends at most
    61 seconds in [time.sleep]. *)
Theorem run_is_bounded (w : world) :
  attempts is_backend_launch (trace (main w)) <= 1
  /\ attempts is_sink_open (trace (main w)) <= 1
  /\ attempts is_poll (trace (main w)) <= 60
  /\ attempts is_handoff (trace (main w)) <= 1
  /\ (0 <= slept (trace (main w)) <= 61)%Z.
Proof.
  pose proof (slept_prepare_bounds w) as Hprep.
  by_main_cases w; rewrite Hmain; cbn [trace fst];
    (split; [count_events w; lia|]); (split; [count_events w; lia|]);
    (split; [count_events w; lia|]); (split; [count_events w; lia|]);
    rewrite slept_app, ?slept_launch, ?slept_ready, ?slept_timeout;
    cbn [slept launch_trace]; lia.
Qed.

(** X16. A run that ends in [sys.exit] exits with status 1 and has printed
    a line starting with [[worker] ERROR: ] before. *)
Theorem sys_exit_is_announced (w : world) (code : Z) :
  outcome (main w) = inl (SystemExit code) ->
  code = 1%Z
  /\ exists line,
       In line (printed (trace (main w)))
       /\ String.prefix "[worker] ERROR: " line = true.
Proof.
  intros Hexit.
  by_main_cases w; rewrite Hmain in Hexit |- *; cbn [outcome snd] in Hexit;
    try discriminate Hexit; injection Hexit as <-; (split; [reflexivity|]);
    cbn [trace fst].
  - exists "[worker] ERROR: Cannot find app_server.py in /root/service or /workspace".
    split; [|reflexivity]. rewrite printed_app. apply in_or_app. right. now left.
  - exists "[worker] ERROR: FastAPI did not become healthy in 60s".
    split; [|reflexivity]. rewrite !printed_app. unfold timeout_trace.
    apply in_or_app. right. apply in_or_app. right.
    cbn [printed]. right. rewrite printed_app, printed_ticks. now left.
Qed.

(** A node without entry point announces why it gives up. *)
Lemma bare_node_announces_exit :
  outcome (main bare_world) = inl (SystemExit 1)
  /\ exists line,
       In line (printed (trace (main bare_world)))
       /\ String.prefix "[worker] ERROR: " line = true.
Proof.
  assert (outcome (main bare_world) = inl (SystemExit 1)) as Hexit
    by reflexivity.
  split; [exact Hexit|].
  exact (proj2 (sys_exit_is_announced bare_world 1 Hexit)).
Defined.

Lemma prepare_printed_tagged (w : world) :
  Forall (fun line => tagged line = true) (printed (trace (prepare w))).
Proof.
  rewrite prepare_trace, printed_app, start_xvfb_trace, install_ca_trace.
  apply Forall_app. split.
  - destruct (pgrep_result w) as [returncode|e];
      [destruct (returncode =? 0)%Z; [|destruct (xvfb_spawn w)]|];
      repeat constructor.
  - destruct (path_exists w CA_CERT); [destruct (certutil_result w)|];
      repeat constructor.
Qed.

Lemma print_log_tail_printed_tagged (w : world) :
  Forall (fun line => tagged line = true) (printed (trace (print_log_tail w))).
Proof.
  rewrite print_log_tail_trace.
  destruct (log_flush w), (log_reopen w), (log_readlines w) as [lines|];
    cbn [printed]; try constructor.
  rewrite printed_map_print. apply Forall_map, Forall_forall.
  intros line _. unfold tagged, log_line.
  change ("  " +:+ rstrip line) with (String " " (String " " (rstrip line))).
  cbn. now destruct (rstrip line).
Qed.

(** X17. Every line the controller prints is either one of its own
    messages, which start with [[worker] ], or an excerpt of the backend's
    log, indented by two spaces. *)
Theorem printed_lines_are_tagged (w : world) :
  Forall (fun line => tagged line = true) (printed (trace (main w))).
Proof.
  pose proof (prepare_printed_tagged w) as Hprep.
  pose proof (print_log_tail_printed_tagged w) as Hdiag.
  by_main_cases w; rewrite Hmain; cbn [trace fst];
    unfold launch_trace, ready_trace, timeout_trace;
    repeat (rewrite ?printed_app, ?printed_ticks; cbn [printed app]);
    repeat (apply Forall_app; split);
    repeat (assumption || constructor).
Qed.
